(** * torch_trainer: the epoch loop of [TorchTrainer] (src/torch_trainer/_utils.py)

    A shallow embedding of [TorchTrainer.train] and of the methods it calls,
    written as a state-and-exception monad over the trainer's slots and over
    the part of the outside world the loop talks to (the network's mode flag,
    the wall clock, the batch iterators, the plotting sink).

    Modelling choices, all stated here once.
    - Python floats are binary64: they are Rocq's primitive floats.  The
      integer literal [0] that seeds an accumulator is the float zero, which is
      what Python's int/float coercion makes of it in [0 + x] and [0 / n].
      Validation losses are tensors in the source; only the number of committed
      values matters below, so they use the same arithmetic.
    - Everything the loop calls but does not own may raise, and Ctrl-C may be
      delivered between any two calls.  Both are decided by one oracle,
      [fault_at]: the k-th checkpoint of the run raises what the oracle says, or
      goes through.  A raised exception remembers the block of [train] it was
      raised in, as a Python traceback does.
    - [time()] and the iterators are oracles indexed by the number of calls made
      so far, so that a source may yield different batches on each pass.
    - The draw settings (alpha, figsize, colours, savefig_path) only reach
      matplotlib and are left out; [draw_info] is a single reported event.
      Entering and leaving [torch.no_grad()] is not recorded. *)

From Stdlib Require Import ZArith List Lia Floats Bool.
From stdpp Require Import base option gmap.
Import ListNotations.
Local Open Scope Z_scope.

(** ** Exceptions, tracebacks and outcomes *)

Inductive exn : Type :=
| KeyboardInterrupt
| UnboundLocalError
| ZeroDivisionError
| TypeError
| RuntimeError.

(** The block of [train] a statement belongs to. *)
Inductive Phase : Type :=
| PhInit      (* line 276: the first time stamp *)
| PhTrain     (* lines 280-296 *)
| PhEval      (* lines 298-318 *)
| PhCommit    (* line 321, inside the try *)
| PhRecover   (* lines 323-324, the except handler *)
| PhTiming    (* lines 327-329, the finally block *)
| PhFinish.   (* lines 331-332 *)

Inductive outcome (A : Type) : Type :=
| Ret (a : A)
| Exc (e : exn) (origin : Phase).
Arguments Ret {A} a.
Arguments Exc {A} e origin.

Definition is_interrupt (e : exn) : bool :=
  match e with KeyboardInterrupt => true | _ => false end.

Definition returned {A} (o : outcome A) : bool :=
  match o with Ret _ => true | Exc _ _ => false end.

(** Which of the three histories or sources an event is about. *)
Inductive Which : Type := Train | Valid | Test.

(** What the loop asks of its collaborators, in the order it asks. *)
Inductive Event : Type :=
| EvTime                       (* time() *)
| EvSetMode (mode : bool)      (* network.train(mode) *)
| EvIter (src : Which)         (* enumerate(<src>_iterator, 1) *)
| EvZeroGrad                   (* optimizer.zero_grad() *)
| EvForward                    (* forward(batch) *)
| EvCalcLoss                   (* calc_loss(batch, result) *)
| EvBackward                   (* loss.backward() *)
| EvClip (max_norm : float)    (* clip_grad_norm_(network.parameters(), clip_rate) *)
| EvStep                       (* optimizer.step() *)
| EvItem                       (* loss.item() *)
| EvAppend (h : Which)         (* self._<h>_loss_history.append(...) *)
| EvDraw (epoch : Z).          (* self.draw_info() *)

Definition is_clip (ev : Event) : bool :=
  match ev with EvClip _ => true | _ => false end.

Definition is_draw (ev : Event) : bool :=
  match ev with EvDraw _ => true | _ => false end.

(** The world outside the trainer object. *)
Record World : Type := {
  training : bool;        (* network.training *)
  ticks : nat;            (* checkpoints passed so far *)
  time_calls : nat;       (* calls of time() so far *)
  iters : nat;            (* iterations started so far, over all sources *)
  log : list Event;       (* calls made so far, oldest first *)
  phase : Phase           (* the block being executed *)
}.

Definition set_training (v : bool) (w : World) : World :=
  {| training := v; ticks := ticks w; time_calls := time_calls w; iters := iters w; log := log w; phase := phase w |}.

Definition set_ticks (v : nat) (w : World) : World :=
  {| training := training w; ticks := v; time_calls := time_calls w; iters := iters w; log := log w; phase := phase w |}.

Definition set_time_calls (v : nat) (w : World) : World :=
  {| training := training w; ticks := ticks w; time_calls := v; iters := iters w; log := log w; phase := phase w |}.

Definition set_iters (v : nat) (w : World) : World :=
  {| training := training w; ticks := ticks w; time_calls := time_calls w; iters := v; log := log w; phase := phase w |}.

Definition set_log (v : list Event) (w : World) : World :=
  {| training := training w; ticks := ticks w; time_calls := time_calls w; iters := iters w; log := v; phase := phase w |}.

Definition set_phase (v : Phase) (w : World) : World :=
  {| training := training w; ticks := ticks w; time_calls := time_calls w; iters := iters w; log := log w; phase := v |}.

(** [n_batch] as a float, for [train_loss /= n_batch]. *)
Definition float_of_nat (n : nat) : float :=
  PrimFloat.of_uint63 (Uint63.of_Z (Z.of_nat n)).

(** The mean as line 280-295 computes it: a left-to-right sum from zero,
    divided by the number of batches. *)
Definition mean (losses : list float) : float :=
  (fold_left PrimFloat.add losses 0 / float_of_nat (length losses))%float.

(** ** The calls of a run *)

(** The calls one training batch makes when nothing cuts it off. *)
Definition step_trace (clip_rate : option float) : list Event :=
  [EvZeroGrad; EvForward; EvCalcLoss; EvBackward]
  ++ match clip_rate with Some r => [EvClip r] | None => [] end
  ++ [EvStep; EvItem].

(** The calls the training phase may make. *)
Definition train_event (clip_rate : option float) (ev : Event) : Prop :=
  match ev with
  | EvSetMode true | EvIter Train
  | EvZeroGrad | EvForward | EvCalcLoss | EvBackward | EvStep | EvItem => True
  | EvClip r => clip_rate = Some r
  | _ => False
  end.

(** The calls the evaluation phase may make. *)
Definition eval_event (ev : Event) : Prop :=
  match ev with
  | EvSetMode false | EvIter Valid | EvIter Test | EvForward | EvCalcLoss => True
  | _ => False
  end.

(** The calls lines 321-324 may make. *)
Definition commit_event (ev : Event) : Prop :=
  match ev with
  | EvAppend _ | EvSetMode _ => True
  | _ => False
  end.

(** The calls the try statement of lines 320-329 may make. *)
Definition save_event (ev : Event) : Prop :=
  match ev with
  | EvAppend _ | EvSetMode _ | EvTime | EvDraw _ => True
  | _ => False
  end.

(** The calls an epoch may make. *)
Definition run_event (clip_rate : option float) (ev : Event) : Prop :=
  train_event clip_rate ev \/ eval_event ev \/ save_event ev.

(** [n_batch] after a loop over [batches] that started counting at [i]. *)
Definition last_index {B} (batches : list B) (i : nat) (n_batch : option nat) : option nat :=
  match batches with
  | [] => n_batch
  | _ :: _ => Some (i + length batches - 1)%nat
  end.

(** [l'] is [l] followed by calls that all satisfy [P]. *)
Definition extends (P : Event -> Prop) (l l' : list Event) : Prop :=
  exists evs, l' = l ++ evs /\ Forall P evs.

Definition clips (l : list Event) : list Event := List.filter is_clip l.

Definition draws (l : list Event) : list Event := List.filter is_draw l.

Section Trainer.

(** Batches and forward results are opaque to the trainer. *)
Context {Batch FwdResult : Type}.

(** A batch source: what the k-th iteration started in this run yields. *)
Definition BatchIterable : Type := nat -> list Batch.

Record TorchTrainer : Type := {
  (* Main attributes *)
  _train_function : Batch -> FwdResult;
  _loss_function : Batch -> FwdResult -> float;
  (* Data iterators *)
  _train_iterator : BatchIterable;
  _test_iterator : option BatchIterable;
  _valid_iterator : option BatchIterable;
  (* Constants *)
  _n_epochs : Z;
  _clip_rate : option float;
  (* Loss history *)
  _valid_loss_history : list float;
  _train_loss_history : list float;
  _test_loss_history : list float;
  (* Auxiliary info *)
  _epoch : Z;
  _completed : bool;
  _has_test : bool;
  _has_valid : bool;
  _initial_mode : bool;
  (* Timing attributes *)
  _time_elapsed : float;
  (* Temporary attributes *)
  __time_stamp : float;
  __train_loss : float;
  __test_loss : float;
  __val_loss : float;
  __speed : float
}.

Definition set_valid_loss_history (v : list float) (t : TorchTrainer) : TorchTrainer :=
  {| _train_function := _train_function t; _loss_function := _loss_function t;
     _train_iterator := _train_iterator t; _test_iterator := _test_iterator t;
     _valid_iterator := _valid_iterator t; _n_epochs := _n_epochs t; _clip_rate := _clip_rate t;
     _valid_loss_history := v; _train_loss_history := _train_loss_history t;
     _test_loss_history := _test_loss_history t; _epoch := _epoch t; _completed := _completed t;
     _has_test := _has_test t; _has_valid := _has_valid t; _initial_mode := _initial_mode t;
     _time_elapsed := _time_elapsed t; __time_stamp := __time_stamp t;
     __train_loss := __train_loss t; __test_loss := __test_loss t; __val_loss := __val_loss t;
     __speed := __speed t |}.

Definition set_train_loss_history (v : list float) (t : TorchTrainer) : TorchTrainer :=
  {| _train_function := _train_function t; _loss_function := _loss_function t;
     _train_iterator := _train_iterator t; _test_iterator := _test_iterator t;
     _valid_iterator := _valid_iterator t; _n_epochs := _n_epochs t; _clip_rate := _clip_rate t;
     _valid_loss_history := _valid_loss_history t; _train_loss_history := v;
     _test_loss_history := _test_loss_history t; _epoch := _epoch t; _completed := _completed t;
     _has_test := _has_test t; _has_valid := _has_valid t; _initial_mode := _initial_mode t;
     _time_elapsed := _time_elapsed t; __time_stamp := __time_stamp t;
     __train_loss := __train_loss t; __test_loss := __test_loss t; __val_loss := __val_loss t;
     __speed := __speed t |}.

Definition set_test_loss_history (v : list float) (t : TorchTrainer) : TorchTrainer :=
  {| _train_function := _train_function t; _loss_function := _loss_function t;
     _train_iterator := _train_iterator t; _test_iterator := _test_iterator t;
     _valid_iterator := _valid_iterator t; _n_epochs := _n_epochs t; _clip_rate := _clip_rate t;
     _valid_loss_history := _valid_loss_history t; _train_loss_history := _train_loss_history t;
     _test_loss_history := v; _epoch := _epoch t; _completed := _completed t;
     _has_test := _has_test t; _has_valid := _has_valid t; _initial_mode := _initial_mode t;
     _time_elapsed := _time_elapsed t; __time_stamp := __time_stamp t;
     __train_loss := __train_loss t; __test_loss := __test_loss t; __val_loss := __val_loss t;
     __speed := __speed t |}.

Definition set_epoch (v : Z) (t : TorchTrainer) : TorchTrainer :=
  {| _train_function := _train_function t; _loss_function := _loss_function t;
     _train_iterator := _train_iterator t; _test_iterator := _test_iterator t;
     _valid_iterator := _valid_iterator t; _n_epochs := _n_epochs t; _clip_rate := _clip_rate t;
     _valid_loss_history := _valid_loss_history t; _train_loss_history := _train_loss_history t;
     _test_loss_history := _test_loss_history t; _epoch := v; _completed := _completed t;
     _has_test := _has_test t; _has_valid := _has_valid t; _initial_mode := _initial_mode t;
     _time_elapsed := _time_elapsed t; __time_stamp := __time_stamp t;
     __train_loss := __train_loss t; __test_loss := __test_loss t; __val_loss := __val_loss t;
     __speed := __speed t |}.

Definition set_completed (v : bool) (t : TorchTrainer) : TorchTrainer :=
  {| _train_function := _train_function t; _loss_function := _loss_function t;
     _train_iterator := _train_iterator t; _test_iterator := _test_iterator t;
     _valid_iterator := _valid_iterator t; _n_epochs := _n_epochs t; _clip_rate := _clip_rate t;
     _valid_loss_history := _valid_loss_history t; _train_loss_history := _train_loss_history t;
     _test_loss_history := _test_loss_history t; _epoch := _epoch t; _completed := v;
     _has_test := _has_test t; _has_valid := _has_valid t; _initial_mode := _initial_mode t;
     _time_elapsed := _time_elapsed t; __time_stamp := __time_stamp t;
     __train_loss := __train_loss t; __test_loss := __test_loss t; __val_loss := __val_loss t;
     __speed := __speed t |}.

Definition set_time_elapsed (v : float) (t : TorchTrainer) : TorchTrainer :=
  {| _train_function := _train_function t; _loss_function := _loss_function t;
     _train_iterator := _train_iterator t; _test_iterator := _test_iterator t;
     _valid_iterator := _valid_iterator t; _n_epochs := _n_epochs t; _clip_rate := _clip_rate t;
     _valid_loss_history := _valid_loss_history t; _train_loss_history := _train_loss_history t;
     _test_loss_history := _test_loss_history t; _epoch := _epoch t; _completed := _completed t;
     _has_test := _has_test t; _has_valid := _has_valid t; _initial_mode := _initial_mode t;
     _time_elapsed := v; __time_stamp := __time_stamp t; __train_loss := __train_loss t;
     __test_loss := __test_loss t; __val_loss := __val_loss t; __speed := __speed t |}.

Definition set__time_stamp (v : float) (t : TorchTrainer) : TorchTrainer :=
  {| _train_function := _train_function t; _loss_function := _loss_function t;
     _train_iterator := _train_iterator t; _test_iterator := _test_iterator t;
     _valid_iterator := _valid_iterator t; _n_epochs := _n_epochs t; _clip_rate := _clip_rate t;
     _valid_loss_history := _valid_loss_history t; _train_loss_history := _train_loss_history t;
     _test_loss_history := _test_loss_history t; _epoch := _epoch t; _completed := _completed t;
     _has_test := _has_test t; _has_valid := _has_valid t; _initial_mode := _initial_mode t;
     _time_elapsed := _time_elapsed t; __time_stamp := v; __train_loss := __train_loss t;
     __test_loss := __test_loss t; __val_loss := __val_loss t; __speed := __speed t |}.

Definition set__train_loss (v : float) (t : TorchTrainer) : TorchTrainer :=
  {| _train_function := _train_function t; _loss_function := _loss_function t;
     _train_iterator := _train_iterator t; _test_iterator := _test_iterator t;
     _valid_iterator := _valid_iterator t; _n_epochs := _n_epochs t; _clip_rate := _clip_rate t;
     _valid_loss_history := _valid_loss_history t; _train_loss_history := _train_loss_history t;
     _test_loss_history := _test_loss_history t; _epoch := _epoch t; _completed := _completed t;
     _has_test := _has_test t; _has_valid := _has_valid t; _initial_mode := _initial_mode t;
     _time_elapsed := _time_elapsed t; __time_stamp := __time_stamp t; __train_loss := v;
     __test_loss := __test_loss t; __val_loss := __val_loss t; __speed := __speed t |}.

Definition set__test_loss (v : float) (t : TorchTrainer) : TorchTrainer :=
  {| _train_function := _train_function t; _loss_function := _loss_function t;
     _train_iterator := _train_iterator t; _test_iterator := _test_iterator t;
     _valid_iterator := _valid_iterator t; _n_epochs := _n_epochs t; _clip_rate := _clip_rate t;
     _valid_loss_history := _valid_loss_history t; _train_loss_history := _train_loss_history t;
     _test_loss_history := _test_loss_history t; _epoch := _epoch t; _completed := _completed t;
     _has_test := _has_test t; _has_valid := _has_valid t; _initial_mode := _initial_mode t;
     _time_elapsed := _time_elapsed t; __time_stamp := __time_stamp t;
     __train_loss := __train_loss t; __test_loss := v; __val_loss := __val_loss t;
     __speed := __speed t |}.

Definition set__val_loss (v : float) (t : TorchTrainer) : TorchTrainer :=
  {| _train_function := _train_function t; _loss_function := _loss_function t;
     _train_iterator := _train_iterator t; _test_iterator := _test_iterator t;
     _valid_iterator := _valid_iterator t; _n_epochs := _n_epochs t; _clip_rate := _clip_rate t;
     _valid_loss_history := _valid_loss_history t; _train_loss_history := _train_loss_history t;
     _test_loss_history := _test_loss_history t; _epoch := _epoch t; _completed := _completed t;
     _has_test := _has_test t; _has_valid := _has_valid t; _initial_mode := _initial_mode t;
     _time_elapsed := _time_elapsed t; __time_stamp := __time_stamp t;
     __train_loss := __train_loss t; __test_loss := __test_loss t; __val_loss := v;
     __speed := __speed t |}.

Definition set__speed (v : float) (t : TorchTrainer) : TorchTrainer :=
  {| _train_function := _train_function t; _loss_function := _loss_function t;
     _train_iterator := _train_iterator t; _test_iterator := _test_iterator t;
     _valid_iterator := _valid_iterator t; _n_epochs := _n_epochs t; _clip_rate := _clip_rate t;
     _valid_loss_history := _valid_loss_history t; _train_loss_history := _train_loss_history t;
     _test_loss_history := _test_loss_history t; _epoch := _epoch t; _completed := _completed t;
     _has_test := _has_test t; _has_valid := _has_valid t; _initial_mode := _initial_mode t;
     _time_elapsed := _time_elapsed t; __time_stamp := __time_stamp t;
     __train_loss := __train_loss t; __test_loss := __test_loss t; __val_loss := __val_loss t;
     __speed := v |}.

(** ** The world's oracles *)

(** What the k-th call of [time()] returns. *)
Variable time_source : nat -> float.

(** What is raised at the k-th checkpoint, if anything: a failure of the call
    made there, or a [KeyboardInterrupt] delivered just before it. *)
Variable fault_at : nat -> option exn.

(** ** The monad: state of the trainer and of the world, with exceptions *)

Definition St : Type := (TorchTrainer * World)%type.

Definition M (A : Type) : Type := St -> outcome A * St.

Definition ret {A} (a : A) : M A := fun s => (Ret a, s).

Definition bind {A B} (m : M A) (k : A -> M B) : M B :=
  fun s =>
    match m s with
    | (Ret a, s1) => k a s1
    | (Exc e ph, s1) => (Exc e ph, s1)
    end.

Notation "x <- m ;; k" := (bind m (fun x => k))
  (at level 100, m at next level, right associativity).
Notation "m ;; k" := (bind m (fun _ => k))
  (at level 100, right associativity).

(** [raise e]: the traceback points into the block being executed. *)
Definition raise {A} (e : exn) : M A := fun s => (Exc e (phase (snd s)), s).

(** A bare [raise] in a handler: the exception goes on as it came. *)
Definition reraise {A} (e : exn) (origin : Phase) : M A := fun s => (Exc e origin, s).

Definition self : M TorchTrainer := fun s => (Ret (fst s), s).

Definition world : M World := fun s => (Ret (snd s), s).

(** An assignment to slots of [self]. *)
Definition assign (f : TorchTrainer -> TorchTrainer) : M unit :=
  fun s => (Ret tt, (f (fst s), snd s)).

(** An effect on the world. *)
Definition outside (f : World -> World) : M unit :=
  fun s => (Ret tt, (fst s, f (snd s))).

Definition enter (ph : Phase) : M unit := outside (set_phase ph).

(** A point where the oracle may raise. *)
Definition checkpoint : M unit :=
  fun s =>
    let w := snd s in
    let s1 := (fst s, set_ticks (S (ticks w)) w) in
    match fault_at (ticks w) with
    | Some e => (Exc e (phase w), s1)
    | None => (Ret tt, s1)
    end.

(** A call to a collaborator: it is recorded only if it was not cut off. *)
Definition call (ev : Event) : M unit :=
  checkpoint ;; outside (fun w => set_log (log w ++ [ev]) w).

(** [try: body / except KeyboardInterrupt: handler]. *)
Definition except_KeyboardInterrupt {A} (body : M A) (handler : exn -> Phase -> M A) : M A :=
  fun s =>
    match body s with
    | (Exc e ph, s1) => if is_interrupt e then handler e ph s1 else (Exc e ph, s1)
    | (Ret a, s1) => (Ret a, s1)
    end.

(** [try: body / finally: final]: [final] always runs, and what it raises
    replaces what [body] did. *)
Definition try_finally {A} (body : M A) (final : M unit) : M A :=
  fun s =>
    match body s with
    | (r, s1) =>
        match final s1 with
        | (Ret _, s2) => (r, s2)
        | (Exc e ph, s2) => (Exc e ph, s2)
        end
    end.

(** ** Calls to the collaborators *)

Definition time_ : M float :=
  call EvTime ;;
  w <- world ;;
  outside (set_time_calls (S (time_calls w))) ;;
  ret (time_source (time_calls w)).

(** [network.train(mode)] *)
Definition network_train (mode : bool) : M unit :=
  call (EvSetMode mode) ;; outside (set_training mode).

(** [enumerate(iterator, 1)]: the batches this pass will yield.  Iterating
    [None] is a [TypeError]. *)
Definition enumerate (src : Which) (iterator : option BatchIterable) : M (list Batch) :=
  match iterator with
  | None => raise TypeError
  | Some batches =>
      call (EvIter src) ;;
      w <- world ;;
      outside (set_iters (S (iters w))) ;;
      ret (batches (iters w))
  end.

(** ** [TorchTrainer.__init__] and [clear_history] *)

(** The [isinstance] checks of lines 100-142 are what the argument types say.
    [network_training] is [network.training] at the time of the call.  The
    three temporaries that [__init__] leaves unset are given a zero: each is
    assigned (lines 276, 296, 354) before it is read. *)
Definition __init__ (network_training : bool)
    (train_function : Batch -> FwdResult) (loss_function : Batch -> FwdResult -> float)
    (train_iterator : BatchIterable) (test_iterator valid_iterator : option BatchIterable)
    (n_epochs : Z) (clip_rate : option float) : TorchTrainer :=
  {| _train_function := train_function;
     _loss_function := loss_function;
     _train_iterator := train_iterator;
     _test_iterator := test_iterator;
     _valid_iterator := valid_iterator;
     _n_epochs := n_epochs;
     _clip_rate := clip_rate;
     _valid_loss_history := [];
     _train_loss_history := [];
     _test_loss_history := [];
     _epoch := 1;
     _completed := false;
     _has_test := match test_iterator with Some _ => true | None => false end;
     _has_valid := match valid_iterator with Some _ => true | None => false end;
     _initial_mode := network_training;
     _time_elapsed := 0%float;
     __time_stamp := 0%float;
     __train_loss := 0%float;
     __test_loss := 0%float;
     __val_loss := 0%float;
     __speed := 0%float |}.

Definition clear_history (t : TorchTrainer) : TorchTrainer :=
  set_time_elapsed 0%float
    (set_completed false
       (set_epoch 1
          (set_test_loss_history []
             (set_train_loss_history []
                (set_valid_loss_history [] t))))).

(** ** The training phase (lines 280-296) *)

(** One pass of the body of the loop of line 283; the result is [loss.item()]. *)
Definition train_step (train_batch : Batch) : M float :=
  t <- self ;;
  call EvZeroGrad ;;
  call EvForward ;;
  let result := _train_function t train_batch in
  call EvCalcLoss ;;
  let loss := _loss_function t train_batch result in
  call EvBackward ;;
  match _clip_rate t with
  | Some clip_rate => call (EvClip clip_rate)
  | None => ret tt
  end ;;
  call EvStep ;;
  call EvItem ;;
  ret loss.

(** [for n_batch, train_batch in enumerate(train_iterator, 1)], from index [i]
    on.  [n_batch] is a local of [train]: it keeps its last value, and is
    unbound until some loop of this call has run once. *)
Fixpoint train_loop (batches : list Batch) (i : nat) (train_loss : float)
    (n_batch : option nat) : M (float * option nat) :=
  match batches with
  | [] => ret (train_loss, n_batch)
  | train_batch :: rest =>
      loss <- train_step train_batch ;;
      train_loop rest (S i) (train_loss + loss)%float (Some i)
  end.

(** [x /= n_batch] *)
Definition div_n_batch (x : float) (n_batch : option nat) : M float :=
  match n_batch with
  | None => raise UnboundLocalError
  | Some n => ret (x / float_of_nat n)%float
  end.

Definition train_phase (n_batch : option nat) : M (option nat) :=
  enter PhTrain ;;
  network_train true ;;
  t <- self ;;
  batches <- enumerate Train (Some (_train_iterator t)) ;;
  r <- train_loop batches 1 0%float n_batch ;;
  train_loss <- div_n_batch (fst r) (snd r) ;;
  assign (set__train_loss train_loss) ;;
  ret (snd r).

(** ** The evaluation phase (lines 298-318) *)

Definition eval_step (batch : Batch) : M float :=
  t <- self ;;
  call EvForward ;;
  let result := _train_function t batch in
  call EvCalcLoss ;;
  ret (_loss_function t batch result).

Fixpoint eval_loop (batches : list Batch) (i : nat) (acc : float)
    (n_batch : option nat) : M (float * option nat) :=
  match batches with
  | [] => ret (acc, n_batch)
  | batch :: rest =>
      loss <- eval_step batch ;;
      eval_loop rest (S i) (acc + loss)%float (Some i)
  end.

Definition eval_source (src : Which) (iterator : option BatchIterable)
    (store : float -> TorchTrainer -> TorchTrainer) (n_batch : option nat) : M (option nat) :=
  batches <- enumerate src iterator ;;
  r <- eval_loop batches 1 0%float n_batch ;;
  loss <- div_n_batch (fst r) (snd r) ;;
  assign (store loss) ;;
  ret (snd r).

Definition eval_phase (n_batch : option nat) : M (option nat) :=
  t <- self ;;
  if _has_valid t || _has_test t then
    enter PhEval ;;
    network_train false ;;
    n_batch <- (if _has_valid t
                then eval_source Valid (_valid_iterator t) set__val_loss n_batch
                else ret n_batch) ;;
    (if _has_test t
     then eval_source Test (_test_iterator t) set__test_loss n_batch
     else ret n_batch)
  else ret n_batch.

(** ** Committing the epoch (lines 320-354) *)

(** [self._<h>_loss_history.append(self.__<h>_loss)] *)
Definition append_train (t : TorchTrainer) : TorchTrainer :=
  set_train_loss_history (_train_loss_history t ++ [__train_loss t]) t.

Definition append_valid (t : TorchTrainer) : TorchTrainer :=
  set_valid_loss_history (_valid_loss_history t ++ [__val_loss t]) t.

Definition append_test (t : TorchTrainer) : TorchTrainer :=
  set_test_loss_history (_test_loss_history t ++ [__test_loss t]) t.

Definition __try_save_loss_history : M unit :=
  call (EvAppend Train) ;;
  assign append_train ;;
  t <- self ;;
  (if _has_valid t
   then call (EvAppend Valid) ;; assign append_valid
   else ret tt) ;;
  t <- self ;;
  (if _has_test t
   then call (EvAppend Test) ;; assign append_test
   else ret tt) ;;
  (* the return, still inside the try *)
  checkpoint.

Definition __retry_save_loss_history : M unit :=
  t <- self ;;
  (if negb (Z.of_nat (length (_train_loss_history t)) =? _epoch t)
   then call (EvAppend Train) ;; assign append_train
   else ret tt) ;;
  t <- self ;;
  (if _has_valid t && (length (_valid_loss_history t) <? length (_train_loss_history t))%nat
   then call (EvAppend Valid) ;; assign append_valid
   else ret tt) ;;
  t <- self ;;
  (if _has_test t && (length (_test_loss_history t) <? length (_valid_loss_history t))%nat
   then call (EvAppend Test) ;; assign append_test
   else ret tt).

Definition __calc_timing_stats : M unit :=
  time_stamp <- time_ ;;
  t <- self ;;
  let time_diff := (time_stamp - __time_stamp t)%float in
  assign (set__time_stamp time_stamp) ;;
  assign (fun t => set_time_elapsed (_time_elapsed t + time_diff)%float t) ;;
  if PrimFloat.eqb time_diff 0%float
  then raise ZeroDivisionError
  else assign (set__speed (1 / time_diff)%float).

Definition draw_info : M unit :=
  t <- self ;;
  call (EvDraw (_epoch t)).

(** Lines 322-325: [except KeyboardInterrupt]. *)
Definition on_interrupt (e : exn) (origin : Phase) : M unit :=
  enter PhRecover ;;
  __retry_save_loss_history ;;
  t <- self ;;
  network_train (_initial_mode t) ;;
  reraise e origin.

(** Lines 326-329: [finally]. *)
Definition at_last : M unit :=
  enter PhTiming ;;
  __calc_timing_stats ;;
  draw_info ;;
  assign (fun t => set_epoch (_epoch t + 1) t).

(** Lines 320-329: the try statement of the epoch. *)
Definition save_block : M unit :=
  try_finally
    (except_KeyboardInterrupt (enter PhCommit ;; __try_save_loss_history) on_interrupt)
    at_last.

(** ** [TorchTrainer.train] *)

(** One pass of the loop of line 278. *)
Definition epoch_body (n_batch : option nat) : M (option nat) :=
  n_batch <- train_phase n_batch ;;
  n_batch <- eval_phase n_batch ;;
  save_block ;;
  ret n_batch.

(** [for epoch in range(self._epoch, n_epochs + 1)], [k] passes to go. *)
Fixpoint epochs (k : nat) (n_batch : option nat) : M unit :=
  match k with
  | O => ret tt
  | S k' => n_batch <- epoch_body n_batch ;; epochs k' n_batch
  end.

(** The slots that lines 265-273 load into locals are assigned by [__init__]
    only, so reading them from [self] where they are used is the same. *)
Definition train : M unit :=
  enter PhInit ;;
  time_stamp <- time_ ;;
  assign (set__time_stamp time_stamp) ;;
  t <- self ;;
  epochs (Z.to_nat (_n_epochs t + 1 - _epoch t)) None ;;
  enter PhFinish ;;
  assign (set_completed true) ;;
  t <- self ;;
  network_train (_initial_mode t).

(** ** Views of the trainer *)

(** The loss of a batch: [calc_loss(batch, forward(batch))]. *)
Definition loss_of (t : TorchTrainer) (b : Batch) : float :=
  _loss_function t b (_train_function t b).

(** What [__init__] fixes for the life of the trainer. *)
Definition config (t : TorchTrainer) :=
  (_train_function t, _loss_function t, _train_iterator t, _test_iterator t,
   _valid_iterator t, _n_epochs t, _clip_rate t, _has_test t, _has_valid t, _initial_mode t).

(** What [clear_history] resets. *)
Definition durable (t : TorchTrainer) :=
  (_train_loss_history t, _valid_loss_history t, _test_loss_history t,
   _epoch t, _completed t, _time_elapsed t).

(** The slots after the first [p] statements of [__try_save_loss_history]
    (lines 335, 336-337 and 338-339). *)
Definition saved_upto (p : nat) (t : TorchTrainer) : TorchTrainer :=
  match p with
  | 0%nat => t
  | 1%nat => append_train t
  | 2%nat => if _has_valid t then append_valid (append_train t) else append_train t
  | _ =>
      let t2 := if _has_valid t then append_valid (append_train t) else append_train t in
      if _has_test t then append_test t2 else t2
  end.

(** The three statements of [__retry_save_loss_history] (lines 342-343,
    344-345 and 346-347), and the slots after all three. *)
Definition retry_train (t : TorchTrainer) : TorchTrainer :=
  if negb (Z.of_nat (length (_train_loss_history t)) =? _epoch t)
  then append_train t else t.

Definition retry_valid (t : TorchTrainer) : TorchTrainer :=
  if _has_valid t && (length (_valid_loss_history t) <? length (_train_loss_history t))%nat
  then append_valid t else t.

Definition retry_test (t : TorchTrainer) : TorchTrainer :=
  if _has_test t && (length (_test_loss_history t) <? length (_valid_loss_history t))%nat
  then append_test t else t.

Definition retried (t : TorchTrainer) : TorchTrainer :=
  retry_test (retry_valid (retry_train t)).

(** The slots after the finally block has run to its end, [time()] having
    returned [time_stamp]. *)
Definition timed (time_stamp : float) (t : TorchTrainer) : TorchTrainer :=
  let time_diff := (time_stamp - __time_stamp t)%float in
  set_epoch (_epoch t + 1)
    (set__speed (1 / time_diff)%float
       (set_time_elapsed (_time_elapsed t + time_diff)%float
          (set__time_stamp time_stamp t))).

(** [t'] differs from [t] in the histories and the loss temporaries at most. *)
Definition histories_apart (t t' : TorchTrainer) : Prop :=
  config t' = config t /\ _epoch t' = _epoch t /\ _completed t' = _completed t
  /\ _time_elapsed t' = _time_elapsed t /\ __time_stamp t' = __time_stamp t.

Definition histories (t : TorchTrainer) :=
  (_train_loss_history t, _valid_loss_history t, _test_loss_history t).

(** [t1] is [t] as the training and evaluation phases of an epoch started
    from [t] and [w] leave it: the mean loss of the pass is in [__train_loss]. *)
Definition ready (n_batch : option nat) (t : TorchTrainer) (w : World)
    (t1 : TorchTrainer) : Prop :=
  config t1 = config t /\ durable t1 = durable t /\ __time_stamp t1 = __time_stamp t
  /\ exists n, last_index (_train_iterator t (iters w)) 1 n_batch = Some n
       /\ __train_loss t1
          = (fold_left PrimFloat.add (map (loss_of t) (_train_iterator t (iters w))) 0
             / float_of_nat n)%float.

(** The history length invariant of a trainer between two epochs. *)
Definition stable (t : TorchTrainer) : Prop :=
  Z.of_nat (length (_train_loss_history t)) = _epoch t - 1
  /\ length (_valid_loss_history t)
     = (if _has_valid t then length (_train_loss_history t) else 0%nat)
  /\ length (_test_loss_history t)
     = (if _has_test t then length (_train_loss_history t) else 0%nat).

(** The lengths of the three histories. *)
Definition history_lengths (t : TorchTrainer) : nat * nat * nat :=
  (length (_train_loss_history t), length (_valid_loss_history t),
   length (_test_loss_history t)).

(** What is known of the trainer after [train] has raised [e] from the block
    [ph], having started from [t]: the invariant survives an exception raised
    before the commit or after the loop; a [KeyboardInterrupt] raised in the
    commit leaves the network in its initial mode, and keeps the invariant when
    a test source comes with a validation source. *)
Definition after_failure (t : TorchTrainer) (e : exn) (ph : Phase)
    (t' : TorchTrainer) (w' : World) : Prop :=
  match ph with
  | PhInit | PhTrain | PhEval | PhFinish => stable t -> stable t'
  | PhCommit =>
      (is_interrupt e = true -> training w' = _initial_mode t)
      /\ (stable t -> is_interrupt e = true ->
          (_has_test t = true -> _has_valid t = true) -> stable t')
  | PhRecover | PhTiming => True
  end.

(** The outcomes of [train] after which the invariant is claimed. *)
Definition clean (t : TorchTrainer) (r : outcome unit) : Prop :=
  match r with
  | Ret _ => True
  | Exc e (PhInit | PhTrain | PhEval | PhFinish) => True
  | Exc e PhCommit => is_interrupt e = true /\ (_has_test t = true -> _has_valid t = true)
  | Exc e (PhRecover | PhTiming) => False
  end.

(** The trainers a caller can come to hold: built by [__init__], then used
    through [clear_history] and [train] only, each call of [train] ending in
    an outcome that [allowed] admits, in whatever world it is made. *)
Inductive reachable (allowed : TorchTrainer -> outcome unit -> Prop) : TorchTrainer -> Prop :=
| reach_init network_training train_function loss_function train_iterator
    test_iterator valid_iterator n_epochs clip_rate :
    reachable allowed
      (__init__ network_training train_function loss_function train_iterator
         test_iterator valid_iterator n_epochs clip_rate)
| reach_clear t : reachable allowed t -> reachable allowed (clear_history t)
| reach_train t w r s' :
    reachable allowed t -> train (t, w) = (r, s') -> allowed t r ->
    reachable allowed (fst s').

Definition any_outcome (t : TorchTrainer) (r : outcome unit) : Prop := True.

(** The epoch counter stays within its run, and [_completed] is only set
    past the last epoch. *)
Definition on_course (t : TorchTrainer) : Prop :=
  1 <= _epoch t <= Z.max 1 (_n_epochs t + 1)
  /\ (_completed t = true -> _n_epochs t < _epoch t).

(** ** Reasoning about a computation *)

(** [wp m Q s]: running [m] from [s] ends in an outcome and a state that
    satisfy [Q]. *)
Definition wp {A} (m : M A) (Q : outcome A -> St -> Prop) (s : St) : Prop :=
  Q (fst (m s)) (snd (m s)).

End Trainer.

Arguments TorchTrainer : clear implicits.
Arguments BatchIterable : clear implicits.
Arguments St : clear implicits.
Arguments M : clear implicits.

(** * Further views of a run *)

Section Runs.

Context {Batch FwdResult : Type}.
Variable time_source : nat -> float.
Variable fault_at : nat -> option exn.

(** The flags agree with the sources, as lines 115 and 119 set them. *)
Definition flags_ok (t : TorchTrainer Batch FwdResult) : Prop :=
  (_has_valid t = true -> _valid_iterator t <> None)
  /\ (_has_test t = true -> _test_iterator t <> None).

(** The epochs a call of [train] has to run: the length of
    [range(self._epoch, n_epochs + 1)]. *)
Definition epochs_to_go (t : TorchTrainer Batch FwdResult) : nat :=
  Z.to_nat (_n_epochs t + 1 - _epoch t).


(** [elapsed] with the differences of the [count + 1] successive readings
    from the one numbered [first] added to it one after the other. *)
Definition elapsed_sum (first count : nat) (elapsed : float) : float :=
  fold_left
    (fun acc i => (acc + (time_source (S (first + i)%nat) - time_source (first + i)%nat))%float)
    (seq 0 count) elapsed.

(** The exception [e] is one the oracle raises at some checkpoint: a failure
    of a collaborator or a signal, not an error of the loop itself. *)
Definition raised_by_oracle (e : exn) : Prop :=
  exists k, fault_at k = Some e.

(** The histories of [t'] are those of [t] with entries appended, none to the
    history of a source that is not configured; the configuration is the same. *)
Definition grown (t t' : TorchTrainer Batch FwdResult) : Prop :=
  config t' = config t
  /\ exists a b c,
       _train_loss_history t' = _train_loss_history t ++ a
       /\ _valid_loss_history t' = _valid_loss_history t ++ b
       /\ _test_loss_history t' = _test_loss_history t ++ c
       /\ (_has_valid t = false -> b = [])
       /\ (_has_test t = false -> c = []).

(** The passes over a source that an epoch starts. *)
Definition stride (t : TorchTrainer Batch FwdResult) : nat :=
  (1 + (if _has_valid t then 1 else 0) + (if _has_test t then 1 else 0))%nat.

(** The means of the [count] passes over the train source that [count]
    epochs make, the first pass being the iteration numbered [first]. *)
Definition pass_means (t : TorchTrainer Batch FwdResult) (first count : nat) : list float :=
  map (fun i => mean (map (loss_of t) (_train_iterator t (first + i * stride t)%nat)))
      (seq 0 count).

End Runs.

(** * The history accessors (lines 210-220)

    The accessors hand out [self._<h>_loss_history.copy()].  What a copy is
    worth only shows where lists are objects that can be reached through
    several references, so here the three slots hold references into a heap
    of list objects. *)

(** The list objects of the heap, by address. *)
Abbreviation Heap := (gmap positive (list float)).

(** The three history slots of [self]. *)
Record HistorySlots : Type := {
  train_ref : positive;
  test_ref : positive;
  valid_ref : positive
}.

(** [l.copy()]: a new list object with the elements of the one at [l]. *)
Definition list_copy (l : positive) (h : Heap) : option (positive * Heap) :=
  match h !! l with
  | Some elems => let l' := fresh (dom h) in Some (l', <[l' := elems]> h)
  | None => None
  end.

Definition train_loss_history (self : HistorySlots) (h : Heap) : option (positive * Heap) :=
  list_copy (train_ref self) h.

Definition test_loss_history (self : HistorySlots) (h : Heap) : option (positive * Heap) :=
  list_copy (test_ref self) h.

Definition valid_loss_history (self : HistorySlots) (h : Heap) : option (positive * Heap) :=
  list_copy (valid_ref self) h.

(** What a caller can do with a reference: change the list it points to in
    place ([append], [clear], [l[i] = x], ...). *)
Definition mutate (l : positive) (f : list float -> list float) (h : Heap) : Heap :=
  alter f l h.

(** An accessor [read] of the slot [slot] hands out a copy. *)
Definition defensive (read : HistorySlots -> Heap -> option (positive * Heap))
    (slot : HistorySlots -> positive) : Prop :=
  forall self h r h',
    read self h = Some (r, h') ->
    (* the caller gets the elements of the history, in a list that is new *)
    h' !! r = h !! slot self /\ h !! r = None
    (* reading changes no list that was there *)
    /\ (forall l, is_Some (h !! l) -> h' !! l = h !! l)
    (* and neither does anything the caller then does to what it got *)
    /\ (forall f l, is_Some (h !! l) -> mutate r f h' !! l = h !! l)
    (* so that the next read finds the same elements *)
    /\ (forall r2 h2, read self h' = Some (r2, h2) -> h2 !! r2 = h !! slot self)
    /\ (forall f r2 h2, read self (mutate r f h') = Some (r2, h2) ->
        h2 !! r2 = h !! slot self).

(** * Sample runs *)

Definition fresh_world (network_training : bool) : World :=
  {| training := network_training; ticks := 0; time_calls := 0; iters := 0;
     log := []; phase := PhInit |}.

(** A clock that advances by one second between two readings. *)
Definition wall_clock (k : nat) : float := float_of_nat (S k).

Definition no_fault (k : nat) : option exn := None.

(** The checkpoint [k0] raises [e]; every other one goes through. *)
Definition fault_only (k0 : nat) (e : exn) (k : nat) : option exn :=
  if Nat.eqb k k0 then Some e else None.

(** A trainer over batches that are their own loss, built while the network
    is in evaluation mode; each source yields the same batches on every pass. *)
Definition plain (train_batches : list float) (test valid : option (list float))
    (n_epochs : Z) (clip_rate : option float) : TorchTrainer float float :=
  __init__ false (fun b => b) (fun _ r => r) (fun _ => train_batches)
    (option_map (fun l _ => l) test) (option_map (fun l _ => l) valid)
    n_epochs clip_rate.

Definition three_batches : TorchTrainer float float :=
  plain [2; 4; 6]%float None None 1 (Some 1%float).

Definition test_only : TorchTrainer float float :=
  plain [2]%float (Some [1]%float) None 1 None.

Definition valid_and_test : TorchTrainer float float :=
  plain [2]%float (Some [1]%float) (Some [3]%float) 2 None.

Definition no_batches : TorchTrainer float float :=
  plain [] None None 1 None.

(** A train source that yields one batch on its first pass and none after. *)
Definition drying_up : TorchTrainer float float :=
  __init__ false (fun b => b) (fun _ r => r)
    (fun k => match k with O => [2%float] | S _ => [] end) None None 2 None.

(** A trainer that is asked for no epoch. *)
Definition zero_epochs : TorchTrainer float float :=
  plain [2]%float None None 0 None.

(** A clock that stands still. *)
Definition stopped_clock (k : nat) : float := 1%float.

(** A heap with one list object per history. *)
Definition sample_slots : HistorySlots :=
  {| train_ref := 1%positive; test_ref := 2%positive; valid_ref := 3%positive |}.

Definition sample_heap : Heap :=
  <[1%positive := [4%float]]> (<[2%positive := []]> (<[3%positive := []]> ∅)).

(** * Properties of the loop *)

Section TrainerProofs.

Context {Batch FwdResult : Type}.
Variable time_source : nat -> float.
Variable fault_at : nat -> option exn.

Local Abbreviation TorchTrainer := (TorchTrainer Batch FwdResult).
Local Abbreviation St := (St Batch FwdResult).
Local Abbreviation M := (M Batch FwdResult).
Local Abbreviation checkpoint := (checkpoint fault_at).
Local Abbreviation call := (call fault_at).
Local Abbreviation time_ := (time_ time_source fault_at).
Local Abbreviation network_train := (network_train fault_at).
Local Abbreviation enumerate := (enumerate fault_at).
Local Abbreviation train_step := (train_step fault_at).
Local Abbreviation train_loop := (train_loop fault_at).
Local Abbreviation train_phase := (train_phase fault_at).
Local Abbreviation eval_step := (eval_step fault_at).
Local Abbreviation eval_loop := (eval_loop fault_at).
Local Abbreviation eval_source := (eval_source fault_at).
Local Abbreviation eval_phase := (eval_phase fault_at).
Local Abbreviation __try_save_loss_history := (__try_save_loss_history fault_at).
Local Abbreviation __retry_save_loss_history := (__retry_save_loss_history fault_at).
Local Abbreviation __calc_timing_stats := (__calc_timing_stats time_source fault_at).
Local Abbreviation draw_info := (draw_info fault_at).
Local Abbreviation on_interrupt := (on_interrupt fault_at).
Local Abbreviation at_last := (at_last time_source fault_at).
Local Abbreviation save_block := (save_block time_source fault_at).
Local Abbreviation epoch_body := (epoch_body time_source fault_at).
Local Abbreviation epochs := (epochs time_source fault_at).
Local Abbreviation train := (train time_source fault_at).

(** ** Rules of [wp] *)

Lemma wp_elim {A} (m : M A) Q s r s' : m s = (r, s') -> wp m Q s -> Q r s'.
Proof. unfold wp. intros ->. trivial. Qed.

Lemma wp_mono {A} (m : M A) (Q Q' : outcome A -> St -> Prop) s :
  wp m Q s -> (forall r s', Q r s' -> Q' r s') -> wp m Q' s.
Proof. unfold wp. auto. Qed.

Lemma wp_ret {A} (a : A) (Q : outcome A -> St -> Prop) s : Q (Ret a) s -> wp (ret a) Q s.
Proof. trivial. Qed.

Lemma wp_bind {A B} (m : M A) (k : A -> M B) (Q : outcome B -> St -> Prop) s :
  wp m (fun r s1 => match r with
                    | Ret a => wp (k a) Q s1
                    | Exc e ph => Q (Exc e ph) s1
                    end) s ->
  wp (bind m k) Q s.
Proof. unfold wp, bind. destruct (m s) as [[a|e ph] s1]; trivial. Qed.

Lemma wp_raise {A} e (Q : outcome A -> St -> Prop) s :
  Q (Exc e (phase (snd s))) s -> wp (raise e) Q s.
Proof. trivial. Qed.

Lemma wp_reraise {A} e ph (Q : outcome A -> St -> Prop) s :
  Q (Exc e ph) s -> wp (reraise e ph) Q s.
Proof. trivial. Qed.

Lemma wp_self (Q : outcome TorchTrainer -> St -> Prop) s : Q (Ret (fst s)) s -> wp self Q s.
Proof. trivial. Qed.

Lemma wp_world (Q : outcome World -> St -> Prop) s : Q (Ret (snd s)) s -> wp world Q s.
Proof. trivial. Qed.

Lemma wp_assign f (Q : outcome unit -> St -> Prop) s :
  Q (Ret tt) (f (fst s), snd s) -> wp (assign f) Q s.
Proof. trivial. Qed.

Lemma wp_outside f (Q : outcome unit -> St -> Prop) s :
  Q (Ret tt) (fst s, f (snd s)) -> wp (outside f) Q s.
Proof. trivial. Qed.

Lemma wp_enter ph (Q : outcome unit -> St -> Prop) s :
  Q (Ret tt) (fst s, set_phase ph (snd s)) -> wp (enter ph) Q s.
Proof. trivial. Qed.

Lemma wp_checkpoint (Q : outcome unit -> St -> Prop) t w :
  (forall e, fault_at (ticks w) = Some e -> Q (Exc e (phase w)) (t, set_ticks (S (ticks w)) w)) ->
  (fault_at (ticks w) = None -> Q (Ret tt) (t, set_ticks (S (ticks w)) w)) ->
  wp checkpoint Q (t, w).
Proof.
  unfold wp, checkpoint. simpl. intros He Hn.
  destruct (fault_at (ticks w)); simpl; auto.
Qed.

Lemma wp_call ev (Q : outcome unit -> St -> Prop) t w :
  (forall e, fault_at (ticks w) = Some e -> Q (Exc e (phase w)) (t, set_ticks (S (ticks w)) w)) ->
  (fault_at (ticks w) = None ->
   Q (Ret tt) (t, set_log (log w ++ [ev]) (set_ticks (S (ticks w)) w))) ->
  wp (call ev) Q (t, w).
Proof.
  intros He Hn. apply wp_bind, wp_checkpoint; auto.
Qed.

Lemma wp_time (Q : outcome float -> St -> Prop) t w :
  (forall e, fault_at (ticks w) = Some e -> Q (Exc e (phase w)) (t, set_ticks (S (ticks w)) w)) ->
  (fault_at (ticks w) = None ->
   Q (Ret (time_source (time_calls w)))
     (t, set_time_calls (S (time_calls w)) (set_log (log w ++ [EvTime]) (set_ticks (S (ticks w)) w)))) ->
  wp time_ Q (t, w).
Proof.
  intros He Hn. apply wp_bind, wp_call; auto.
Qed.

Lemma wp_network_train mode (Q : outcome unit -> St -> Prop) t w :
  (forall e, fault_at (ticks w) = Some e -> Q (Exc e (phase w)) (t, set_ticks (S (ticks w)) w)) ->
  (fault_at (ticks w) = None ->
   Q (Ret tt) (t, set_training mode (set_log (log w ++ [EvSetMode mode]) (set_ticks (S (ticks w)) w)))) ->
  wp (network_train mode) Q (t, w).
Proof.
  intros He Hn. apply wp_bind, wp_call; auto.
Qed.

Lemma wp_enumerate src batches (Q : outcome (list Batch) -> St -> Prop) t w :
  (forall e, fault_at (ticks w) = Some e -> Q (Exc e (phase w)) (t, set_ticks (S (ticks w)) w)) ->
  (fault_at (ticks w) = None ->
   Q (Ret (batches (iters w)))
     (t, set_iters (S (iters w)) (set_log (log w ++ [EvIter src]) (set_ticks (S (ticks w)) w)))) ->
  wp (enumerate src (Some batches)) Q (t, w).
Proof.
  intros He Hn. apply wp_bind, wp_call; auto.
Qed.

Lemma wp_except {A} (body : M A) handler (Q : outcome A -> St -> Prop) s :
  wp body (fun r s1 => match r with
                       | Exc e ph => if is_interrupt e then wp (handler e ph) Q s1
                                     else Q (Exc e ph) s1
                       | Ret a => Q (Ret a) s1
                       end) s ->
  wp (except_KeyboardInterrupt body handler) Q s.
Proof.
  unfold wp, except_KeyboardInterrupt. destruct (body s) as [[a|e ph] s1]; simpl; trivial.
  destruct (is_interrupt e); trivial.
Qed.

Lemma wp_finally {A} (body : M A) final (Q : outcome A -> St -> Prop) s :
  wp body (fun r s1 => wp final (fun r2 s2 => match r2 with
                                              | Ret _ => Q r s2
                                              | Exc e ph => Q (Exc e ph) s2
                                              end) s1) s ->
  wp (try_finally body final) Q s.
Proof.
  unfold wp, try_finally. destruct (body s) as [r s1]; simpl.
  destruct (final s1) as [[a|e ph] s2]; trivial.
Qed.

(** ** Symbolic execution *)

Ltac wsimpl :=
  cbn [fst snd training ticks time_calls iters log phase
       set_training set_ticks set_time_calls set_iters set_log set_phase
       _train_function _loss_function _train_iterator _test_iterator _valid_iterator
       _n_epochs _clip_rate _valid_loss_history _train_loss_history _test_loss_history
       _epoch _completed _has_test _has_valid _initial_mode _time_elapsed
       __time_stamp __train_loss __test_loss __val_loss __speed
       set_valid_loss_history set_train_loss_history set_test_loss_history set_epoch
       set_completed set_time_elapsed set__time_stamp set__train_loss set__test_loss
       set__val_loss set__speed append_train append_valid append_test is_interrupt] in *.

Ltac wp_step :=
  lazymatch goal with
  | |- wp (bind _ _) _ _ => apply wp_bind
  | |- wp (ret _) _ _ => apply wp_ret
  | |- wp self _ _ => apply wp_self
  | |- wp world _ _ => apply wp_world
  | |- wp (assign _) _ _ => apply wp_assign
  | |- wp (outside _) _ _ => apply wp_outside
  | |- wp (enter _) _ _ => apply wp_enter
  | |- wp (raise _) _ _ => apply wp_raise
  | |- wp (reraise _ _) _ _ => apply wp_reraise
  | |- wp (call _) _ _ => apply wp_call; [intros ? ? | intros ?]
  | |- wp checkpoint _ _ => apply wp_checkpoint; [intros ? ? | intros ?]
  | |- wp time_ _ _ => apply wp_time; [intros ? ? | intros ?]
  | |- wp (network_train _) _ _ => apply wp_network_train; [intros ? ? | intros ?]
  | |- wp (enumerate _ (Some _)) _ _ => apply wp_enumerate; [intros ? ? | intros ?]
  | |- wp (except_KeyboardInterrupt _ _) _ _ => apply wp_except
  | |- wp (try_finally _ _) _ _ => apply wp_finally
  | |- wp (if ?b then _ else _) _ _ => destruct b eqn:?
  | |- wp (match ?o with _ => _ end) _ _ => destruct o eqn:?
  | |- if is_interrupt ?e then _ else _ => destruct e
  end; wsimpl.

Ltac wp_run := repeat wp_step.

(** Two worlds built by setters are equal when their fields are. *)
Ltac world_eq :=
  unfold set_training, set_ticks, set_time_calls, set_iters, set_log, set_phase;
  cbn [fst snd training ticks time_calls iters log phase];
  reflexivity.

(** ** Logs that only grow *)

Lemma extends_refl P l : extends P l l.
Proof. exists []. split; [symmetry; apply app_nil_r | constructor]. Qed.

Lemma extends_snoc P l l' ev : extends P l l' -> P ev -> extends P l (l' ++ [ev]).
Proof.
  intros (evs & -> & H) Hev. exists (evs ++ [ev]). split.
  - symmetry. apply app_assoc.
  - apply Forall_app. split; [assumption | repeat constructor; assumption].
Qed.

Lemma extends_trans P l1 l2 l3 : extends P l1 l2 -> extends P l2 l3 -> extends P l1 l3.
Proof.
  intros (e1 & -> & H1) (e2 & -> & H2). exists (e1 ++ e2). split.
  - symmetry. apply app_assoc.
  - apply Forall_app. auto.
Qed.

Lemma extends_weaken (P P' : Event -> Prop) l l' :
  (forall ev, P ev -> P' ev) -> extends P l l' -> extends P' l l'.
Proof.
  intros HP (evs & -> & H). exists evs. split; [reflexivity|].
  eapply Forall_impl; eauto.
Qed.

Ltac extends_tac :=
  first [ assumption
        | apply extends_refl
        | apply extends_snoc; [extends_tac | solve [simpl; auto] ]
        | match goal with
          | H : extends _ _ ?l' |- extends _ _ ?l' =>
              eapply extends_trans; [| exact H]; extends_tac
          end ].

(** ** The two batch loops *)

Lemma train_step_spec b (t : TorchTrainer) w :
  wp (train_step b)
     (fun r s' =>
        exists k l, s' = (t, set_log l (set_ticks k w))
          /\ extends (train_event (_clip_rate t)) (log w) l
          /\ match r with
             | Ret x => x = loss_of t b /\ l = log w ++ step_trace (_clip_rate t)
             | Exc e ph => ph = phase w
             end) (t, w).
Proof.
  unfold train_step, step_trace. wp_run;
    (eexists _, _; split; [reflexivity | split; [extends_tac |]]);
    try reflexivity.
  all: split; [reflexivity | rewrite <- !app_assoc; reflexivity].
Qed.

Lemma last_index_cons {B} (b : B) rest i n_batch :
  last_index rest (S i) (Some i) = last_index (b :: rest) i n_batch.
Proof.
  destruct rest; simpl; f_equal; lia.
Qed.

Lemma train_loop_spec batches : forall i train_loss n_batch (t : TorchTrainer) w,
  wp (train_loop batches i train_loss n_batch)
     (fun r s' =>
        exists k l, s' = (t, set_log l (set_ticks k w))
          /\ extends (train_event (_clip_rate t)) (log w) l
          /\ match r with
             | Ret x =>
                 x = (fold_left PrimFloat.add (map (loss_of t) batches) train_loss,
                      last_index batches i n_batch)
                 /\ l = log w ++ flat_map (fun _ => step_trace (_clip_rate t)) batches
             | Exc e ph => ph = phase w
             end) (t, w).
Proof.
  induction batches as [|b rest IH]; intros i train_loss n_batch t w.
  - simpl. apply wp_ret. exists (ticks w), (log w). split; [destruct w; reflexivity|].
    split; [apply extends_refl|]. split; [reflexivity|]. symmetry. apply app_nil_r.
  - cbn [train_loop]. apply wp_bind.
    eapply wp_mono; [apply train_step_spec|].
    intros [x|e ph] s' (k & l & -> & Hext & Hr).
    + destruct Hr as [-> ->].
      eapply wp_mono; [apply IH|].
      intros r s2 (k2 & l2 & -> & Hext2 & Hr2). wsimpl.
      exists k2, l2. split; [reflexivity|]. split; [eapply extends_trans; eassumption|].
      destruct r as [y|e ph]; [|assumption].
      destruct Hr2 as [-> ->]. split.
      * cbn [map fold_left]. rewrite last_index_cons with (b := b) (n_batch := n_batch).
        reflexivity.
      * cbn [flat_map]. rewrite app_assoc. reflexivity.
    + exists k, l. auto.
Qed.

Lemma eval_step_spec b (t : TorchTrainer) w :
  wp (eval_step b)
     (fun r s' =>
        exists k l, s' = (t, set_log l (set_ticks k w))
          /\ extends eval_event (log w) l
          /\ match r with
             | Ret x => x = loss_of t b
             | Exc e ph => ph = phase w
             end) (t, w).
Proof.
  unfold eval_step. wp_run;
    (eexists _, _; split; [reflexivity | split; [extends_tac |]]); reflexivity.
Qed.

Lemma eval_loop_spec batches : forall i acc n_batch (t : TorchTrainer) w,
  wp (eval_loop batches i acc n_batch)
     (fun r s' =>
        exists k l, s' = (t, set_log l (set_ticks k w))
          /\ extends eval_event (log w) l
          /\ match r with
             | Ret x =>
                 x = (fold_left PrimFloat.add (map (loss_of t) batches) acc,
                      last_index batches i n_batch)
             | Exc e ph => ph = phase w
             end) (t, w).
Proof.
  induction batches as [|b rest IH]; intros i acc n_batch t w.
  - simpl. apply wp_ret. exists (ticks w), (log w). split; [destruct w; reflexivity|].
    split; [apply extends_refl | reflexivity].
  - cbn [eval_loop]. apply wp_bind.
    eapply wp_mono; [apply eval_step_spec|].
    intros [x|e ph] s' (k & l & -> & Hext & Hr).
    + subst x.
      eapply wp_mono; [apply IH|].
      intros r s2 (k2 & l2 & -> & Hext2 & Hr2). wsimpl.
      exists k2, l2. split; [reflexivity|]. split; [eapply extends_trans; eassumption|].
      destruct r as [y|e ph]; [|assumption].
      subst y. cbn [map fold_left].
      rewrite last_index_cons with (b := b) (n_batch := n_batch). reflexivity.
    + exists k, l. auto.
Qed.

(** ** The phases of an epoch *)

Lemma train_phase_spec n_batch (t : TorchTrainer) w :
  wp (train_phase n_batch)
     (fun r s' =>
        phase (snd s') = PhTrain /\ time_calls (snd s') = time_calls w
        /\ extends (train_event (_clip_rate t)) (log w) (log (snd s'))
        /\ match r with
           | Exc e ph => ph = PhTrain /\ fst s' = t
           | Ret n_batch' =>
               let batches := _train_iterator t (iters w) in
               exists n, last_index batches 1 n_batch = Some n /\ n_batch' = Some n
                 /\ fst s' = set__train_loss
                      (fold_left PrimFloat.add (map (loss_of t) batches) 0 / float_of_nat n)%float t
                 /\ training (snd s') = true /\ iters (snd s') = S (iters w)
                 /\ log (snd s') = log w ++ [EvSetMode true; EvIter Train]
                      ++ flat_map (fun _ => step_trace (_clip_rate t)) batches
           end) (t, w).
Proof.
  unfold train_phase. wp_run.
  1-2: repeat split; extends_tac.
  eapply wp_mono; [apply train_loop_spec|].
  intros [[x nb']|e ph] s1 (k & l & -> & Hext & Hr); wsimpl.
  - destruct Hr as [[= -> ->] ->]. unfold div_n_batch. wp_run.
    + repeat split; try reflexivity; try extends_tac.
      exists n. repeat split. rewrite <- !app_assoc. reflexivity.
    + repeat split; extends_tac.
  - subst ph. repeat split; extends_tac.
Qed.

Lemma eval_source_spec src iterator store n_batch (t : TorchTrainer) w :
  eval_event (EvIter src) ->
  wp (eval_source src iterator store n_batch)
     (fun r s' =>
        (fst s' = t \/ exists x, fst s' = store x t)
        /\ phase (snd s') = phase w /\ time_calls (snd s') = time_calls w
        /\ training (snd s') = training w
        /\ extends eval_event (log w) (log (snd s'))
        /\ match r with
           | Exc e ph => ph = phase w
           | Ret _ => True
           end) (t, w).
Proof.
  intros Hsrc. unfold eval_source, enumerate. wp_run.
  all: try solve [repeat split; auto; extends_tac].
  eapply wp_mono; [apply eval_loop_spec|].
  intros [[x nb']|e ph] s1 (k & l & -> & Hext & Hr); wsimpl.
  - unfold div_n_batch. wp_run; repeat split; eauto; extends_tac.
  - subst ph. repeat split; auto; extends_tac.
Qed.

Lemma eval_phase_spec n_batch (t : TorchTrainer) w :
  wp (eval_phase n_batch)
     (fun r s' =>
        config (fst s') = config t /\ durable (fst s') = durable t
        /\ __train_loss (fst s') = __train_loss t
        /\ __time_stamp (fst s') = __time_stamp t
        /\ time_calls (snd s') = time_calls w
        /\ extends eval_event (log w) (log (snd s'))
        /\ match r with
           | Exc e ph => ph = PhEval
           | Ret _ => True
           end) (t, w).
Proof.
  unfold eval_phase. wp_run.
  all: try solve [repeat split; auto; extends_tac].
  all: (eapply wp_mono; [apply eval_source_spec; exact I|]);
    intros [nb1|e1 ph1] [t1 w1] (Ht1 & Hph1 & Htc1 & Htr1 & Hext1 & Hr1); wsimpl.
  all: destruct Ht1 as [-> | [x1 ->]].
  all: try solve [repeat split; auto; try congruence; extends_tac].
  all: wp_run.
  all: try solve [repeat split; auto; try congruence; extends_tac].
  all: (eapply wp_mono; [apply eval_source_spec; exact I|]);
    intros [nb2|e2 ph2] [t2 w2] (Ht2 & Hph2 & Htc2 & Htr2 & Hext2 & Hr2); wsimpl.
  all: destruct Ht2 as [-> | [x2 ->]].
  all: repeat split; auto; try congruence; extends_tac.
Qed.

(** ** The try statement of the epoch *)

Ltac rewrite_flags :=
  repeat match goal with
         | H : _ = true |- _ => rewrite H
         | H : _ = false |- _ => rewrite H
         end.

Ltac try_leaf p :=
  exists p; eexists _, _; split; [lia|]; split;
  [ unfold saved_upto; wsimpl; rewrite_flags; reflexivity
  | split; [extends_tac | reflexivity] ].

Lemma try_save_spec (t : TorchTrainer) w :
  wp __try_save_loss_history
     (fun r s' =>
        exists p k l, (p <= 3)%nat /\ s' = (saved_upto p t, set_log l (set_ticks k w))
          /\ extends commit_event (log w) l
          /\ match r with
             | Ret _ => p = 3%nat
             | Exc e ph => ph = phase w
             end) (t, w).
Proof.
  unfold __try_save_loss_history. wp_run.
  all: first [try_leaf 0%nat | try_leaf 1%nat | try_leaf 2%nat | try_leaf 3%nat].
Qed.

Lemma histories_apart_saved p (t : TorchTrainer) : histories_apart t (saved_upto p t).
Proof.
  destruct p as [|[|[|p]]]; unfold saved_upto;
    destruct (_has_valid t), (_has_test t); repeat split.
Qed.

Lemma histories_apart_retried (t : TorchTrainer) : histories_apart t (retried t).
Proof.
  unfold retried, retry_test, retry_valid, retry_train.
  repeat match goal with
         | |- context [if ?b then _ else _] => destruct b
         end; repeat split.
Qed.

Lemma histories_apart_trans (t1 t2 t3 : TorchTrainer) :
  histories_apart t1 t2 -> histories_apart t2 t3 -> histories_apart t1 t3.
Proof.
  unfold histories_apart. intuition congruence.
Qed.

Lemma retry_spec (t : TorchTrainer) w :
  wp __retry_save_loss_history
     (fun r s' =>
        exists k l, snd s' = set_log l (set_ticks k w)
          /\ extends commit_event (log w) l
          /\ histories_apart t (fst s')
          /\ match r with
             | Ret _ => fst s' = retried t
             | Exc e ph => ph = phase w
             end) (t, w).
Proof.
  unfold __retry_save_loss_history. destruct w.
  wp_run; (eexists _, _; split; [world_eq|]; split; [extends_tac|]).
  all: split; [repeat split|]; try reflexivity.
  all: unfold retried, retry_test, retry_valid, retry_train;
    wsimpl; rewrite_flags; wsimpl; rewrite_flags; wsimpl; rewrite_flags; reflexivity.
Qed.

Lemma at_last_spec (t : TorchTrainer) w :
  wp at_last
     (fun r s' =>
        config (fst s') = config t /\ histories (fst s') = histories t
        /\ _completed (fst s') = _completed t
        /\ training (snd s') = training w
        /\ extends save_event (log w) (log (snd s'))
        /\ match r with
           | Ret _ =>
               fst s' = timed (time_source (time_calls w)) t
               /\ time_calls (snd s') = S (time_calls w)
               /\ log (snd s') = log w ++ [EvTime; EvDraw (_epoch t)]
           | Exc e ph => ph = PhTiming /\ _epoch (fst s') = _epoch t
           end) (t, w).
Proof.
  unfold at_last, __calc_timing_stats, draw_info. wp_run.
  all: repeat split; try reflexivity; try extends_tac.
  rewrite <- !app_assoc. reflexivity.
Qed.

Lemma on_interrupt_spec e origin (t : TorchTrainer) w :
  wp (on_interrupt e origin)
     (fun r s' =>
        histories_apart t (fst s')
        /\ time_calls (snd s') = time_calls w
        /\ extends commit_event (log w) (log (snd s'))
        /\ match r with
           | Ret _ => False
           | Exc e' ph =>
               ph = PhRecover
               \/ (e' = e /\ ph = origin /\ fst s' = retried t
                   /\ training (snd s') = _initial_mode t)
           end) (t, w).
Proof.
  unfold on_interrupt. wp_run.
  eapply wp_mono; [apply retry_spec|].
  intros [[]|e' ph] [t1 w1] (k & l & Hw & Hext & Hap & Hr); wsimpl; subst w1.
  - subst t1. wp_run.
    + split; [apply histories_apart_retried|]. split; [reflexivity|].
      split; [extends_tac|]. left. reflexivity.
    + split; [apply histories_apart_retried|]. split; [reflexivity|].
      split; [extends_tac|]. right. repeat split.
      destruct (histories_apart_retried t) as (Hc & _). unfold config in Hc. congruence.
  - split; [assumption|]. split; [reflexivity|]. split; [extends_tac|]. left. assumption.
Qed.

Lemma filter_extends (f : Event -> bool) (P : Event -> Prop) l l' :
  (forall ev, P ev -> f ev = false) -> extends P l l' -> List.filter f l' = List.filter f l.
Proof.
  intros Hf (evs & -> & Hall). rewrite List.filter_app.
  replace (List.filter f evs) with (@nil Event); [apply app_nil_r|].
  induction Hall as [|ev evs Hev _ IH]; [reflexivity|].
  simpl. rewrite (Hf ev Hev). exact IH.
Qed.

Lemma commit_event_not_draw ev : commit_event ev -> is_draw ev = false.
Proof. destruct ev; simpl; intros H; try reflexivity; contradiction. Qed.

Lemma commit_is_save ev : commit_event ev -> save_event ev.
Proof. destruct ev; simpl; trivial. Qed.

Lemma at_last_after_commit (t t1 : TorchTrainer) w w1 :
  histories_apart t t1 ->
  time_calls w1 = time_calls w ->
  extends commit_event (log w) (log w1) ->
  wp at_last
     (fun r s' =>
        (config (fst s') = config t /\ _completed (fst s') = _completed t
         /\ extends save_event (log w) (log (snd s'))
         /\ (_epoch t <= _epoch (fst s') <= _epoch t + 1))
        /\ match r with
           | Ret _ =>
               fst s' = timed (time_source (time_calls w)) t1
               /\ training (snd s') = training w1
               /\ time_calls (snd s') = S (time_calls w)
               /\ draws (log (snd s')) = draws (log w) ++ [EvDraw (_epoch t)]
           | Exc e ph => ph = PhTiming
           end) (t1, w1).
Proof.
  intros (Hc & He & Hcp & _ & _) Htc Hext.
  eapply wp_mono; [apply at_last_spec|].
  intros r [t2 w2] (Hc2 & Hh2 & Hcp2 & Htr2 & Hext2 & Hr2). wsimpl.
  assert (Hlog : extends save_event (log w) (log w2)).
  { eapply extends_trans; [|exact Hext2].
    eapply extends_weaken; [apply commit_is_save | exact Hext]. }
  destruct r as [[]|e ph].
  - destruct Hr2 as (-> & Htc2 & Hl2).
    repeat split; try congruence; try assumption.
    + cbn. lia.
    + cbn. lia.
    + unfold draws. rewrite Hl2, List.filter_app. cbn [List.filter is_draw app].
      rewrite (filter_extends is_draw commit_event _ _ commit_event_not_draw Hext).
      rewrite He. reflexivity.
  - destruct Hr2 as (-> & He2).
    repeat split; try congruence; try assumption; lia.
Qed.

Lemma save_block_spec (t : TorchTrainer) w :
  wp save_block
     (fun r s' =>
        let time_stamp := time_source (time_calls w) in
        (config (fst s') = config t /\ _completed (fst s') = _completed t
         /\ extends save_event (log w) (log (snd s'))
         /\ (_epoch t <= _epoch (fst s') <= _epoch t + 1))
        /\ match r with
           | Ret _ =>
               fst s' = timed time_stamp (saved_upto 3 t)
               /\ training (snd s') = training w
               /\ time_calls (snd s') = S (time_calls w)
               /\ draws (log (snd s')) = draws (log w) ++ [EvDraw (_epoch t)]
           | Exc e PhCommit =>
               exists p, (p <= 3)%nat
                 /\ time_calls (snd s') = S (time_calls w)
                 /\ draws (log (snd s')) = draws (log w) ++ [EvDraw (_epoch t)]
                 /\ if is_interrupt e
                    then fst s' = timed time_stamp (retried (saved_upto p t))
                         /\ training (snd s') = _initial_mode t
                    else fst s' = timed time_stamp (saved_upto p t)
           | Exc e PhRecover => True
           | Exc e PhTiming => True
           | Exc e _ => False
           end) (t, w).
Proof.
  unfold save_block. apply wp_finally, wp_except, wp_bind, wp_enter. wsimpl.
  eapply wp_mono; [apply try_save_spec|].
  intros r [t1 w1] (p & k & l & Hp & [= -> ->] & Hext & Hr). wsimpl.
  destruct r as [[]|e ph].
  - subst p.
    eapply wp_mono;
      [apply (at_last_after_commit t _ w); [apply histories_apart_saved | reflexivity | exact Hext]|].
    intros [[]|e2 ph2] [t2 w2] (Hcommon & Hr2); (split; [exact Hcommon|]); wsimpl.
    + exact Hr2.
    + subst ph2. exact I.
  - subst ph. destruct (is_interrupt e) eqn:Hint.
    + eapply wp_mono; [apply on_interrupt_spec|].
      intros r1 [t1 w1] (Hap & Htc & Hext1 & Hr1). wsimpl.
      destruct r1 as [[]|e1 ph1]; [contradiction|].
      eapply wp_mono;
        [apply (at_last_after_commit t t1 w);
         [eapply histories_apart_trans; [apply histories_apart_saved | exact Hap]
         | exact Htc
         | eapply extends_trans; [exact Hext | exact Hext1] ] |].
      intros [[]|e2 ph2] [t2 w2] (Hcommon & Hr2); (split; [exact Hcommon|]); wsimpl.
      * destruct Hr1 as [-> | (-> & -> & -> & Htr)]; [exact I|].
        destruct Hr2 as (-> & Htr2 & Htc2 & Hd2).
        exists p. rewrite Hint. repeat split; try assumption.
        rewrite Htr2, Htr. destruct (histories_apart_saved p t) as (Hc & _).
        unfold config in Hc. congruence.
      * subst ph2. exact I.
    + eapply wp_mono;
        [apply (at_last_after_commit t _ w); [apply histories_apart_saved | reflexivity | exact Hext]|].
      intros [[]|e2 ph2] [t2 w2] (Hcommon & Hr2); (split; [exact Hcommon|]); wsimpl.
      * destruct Hr2 as (-> & Htr2 & Htc2 & Hd2).
        exists p. repeat split; assumption.
      * subst ph2. exact I.
Qed.

(** ** What the commit does to the lengths of the histories *)

Lemma saved_lengths (t : TorchTrainer) :
  history_lengths (saved_upto 3 t)
  = (S (length (_train_loss_history t)),
     if _has_valid t then S (length (_valid_loss_history t))
     else length (_valid_loss_history t),
     if _has_test t then S (length (_test_loss_history t))
     else length (_test_loss_history t)).
Proof.
  unfold history_lengths, saved_upto.
  destruct (_has_valid t), (_has_test t); wsimpl; rewrite ?length_app; cbn [length];
    repeat f_equal; lia.
Qed.

Lemma saved_upto_lengths p (t : TorchTrainer) :
  history_lengths (saved_upto p t)
  = (let '(a, b, c) := history_lengths t in
     match p with
     | 0%nat => (a, b, c)
     | 1%nat => (S a, b, c)
     | 2%nat => (S a, if _has_valid t then S b else b, c)
     | _ => (S a, if _has_valid t then S b else b, if _has_test t then S c else c)
     end).
Proof.
  unfold history_lengths, saved_upto.
  destruct p as [|[|[|p]]]; destruct (_has_valid t), (_has_test t); wsimpl;
    rewrite ?length_app; cbn [length]; repeat f_equal; lia.
Qed.

Lemma retry_train_lengths (t : TorchTrainer) :
  history_lengths (retry_train t)
  = (let '(a, b, c) := history_lengths t in
     (if Z.of_nat a =? _epoch t then a else S a, b, c)).
Proof.
  unfold history_lengths, retry_train.
  destruct (Z.of_nat (length (_train_loss_history t)) =? _epoch t); cbn [negb]; wsimpl;
    rewrite ?length_app; cbn [length]; repeat f_equal; lia.
Qed.

Lemma retry_valid_lengths (t : TorchTrainer) :
  history_lengths (retry_valid t)
  = (let '(a, b, c) := history_lengths t in
     (a, if _has_valid t && (b <? a)%nat then S b else b, c)).
Proof.
  unfold history_lengths, retry_valid.
  destruct (_has_valid t && _); wsimpl;
    rewrite ?length_app; cbn [length]; repeat f_equal; lia.
Qed.

Lemma retry_test_lengths (t : TorchTrainer) :
  history_lengths (retry_test t)
  = (let '(a, b, c) := history_lengths t in
     (a, b, if _has_test t && (c <? b)%nat then S c else c)).
Proof.
  unfold history_lengths, retry_test.
  destruct (_has_test t && _); wsimpl;
    rewrite ?length_app; cbn [length]; repeat f_equal; lia.
Qed.

Lemma retry_train_apart (t : TorchTrainer) : histories_apart t (retry_train t).
Proof. unfold retry_train. destruct (negb _); repeat split. Qed.

Lemma retry_valid_apart (t : TorchTrainer) : histories_apart t (retry_valid t).
Proof. unfold retry_valid. destruct (_ && _); repeat split. Qed.

Lemma apart_flags (t t' : TorchTrainer) :
  histories_apart t t' ->
  _has_valid t' = _has_valid t /\ _has_test t' = _has_test t /\ _epoch t' = _epoch t
  /\ _initial_mode t' = _initial_mode t /\ _n_epochs t' = _n_epochs t
  /\ _clip_rate t' = _clip_rate t.
Proof.
  intros (Hc & He & _). unfold config in Hc. repeat split; congruence.
Qed.

Lemma retried_saved_lengths p (t : TorchTrainer) :
  (p <= 3)%nat -> stable t -> (_has_test t = true -> _has_valid t = true) ->
  history_lengths (retried (saved_upto p t)) = history_lengths (saved_upto 3 t).
Proof.
  intros Hp (Htr & Hva & Hte) Himp.
  unfold retried.
  destruct (apart_flags _ _ (histories_apart_saved p t)) as (Hv0 & Ht0 & He0 & _).
  destruct (apart_flags _ _ (retry_train_apart (saved_upto p t))) as (Hv1 & Ht1 & He1 & _).
  destruct (apart_flags _ _ (retry_valid_apart (retry_train (saved_upto p t))))
    as (Hv2 & Ht2 & He2 & _).
  rewrite retry_test_lengths, retry_valid_lengths, retry_train_lengths.
  rewrite Ht2, Ht1, Hv1, Ht0, Hv0, He0.
  rewrite !saved_upto_lengths. unfold history_lengths.
  destruct (_has_valid t) eqn:Hv, (_has_test t) eqn:Ht;
    try (specialize (Himp eq_refl); discriminate);
    destruct p as [|[|[|[|p]]]]; try lia; cbn [andb];
    repeat match goal with
           | |- context [Z.eqb ?a ?b] => destruct (Z.eqb_spec a b); try lia
           | |- context [Nat.ltb ?a ?b] => destruct (Nat.ltb_spec a b); try lia
           end;
    reflexivity.
Qed.

(** ** One epoch *)

Lemma train_event_not_draw c ev : train_event c ev -> is_draw ev = false.
Proof. destruct ev as [| [] | [] | | | | | | | | |]; simpl; intros H; try reflexivity; contradiction. Qed.

Lemma eval_event_not_draw ev : eval_event ev -> is_draw ev = false.
Proof. destruct ev as [| [] | [] | | | | | | | | |]; simpl; intros H; try reflexivity; contradiction. Qed.

Lemma eval_event_not_clip ev : eval_event ev -> is_clip ev = false.
Proof. destruct ev as [| [] | [] | | | | | | | | |]; simpl; intros H; try reflexivity; contradiction. Qed.

Lemma save_event_not_clip ev : save_event ev -> is_clip ev = false.
Proof. destruct ev; simpl; intros H; try reflexivity; contradiction. Qed.

Lemma epoch_body_spec n_batch (t : TorchTrainer) w :
  wp (epoch_body n_batch)
     (fun r s' =>
        let time_stamp := time_source (time_calls w) in
        (config (fst s') = config t /\ _completed (fst s') = _completed t
         /\ extends (run_event (_clip_rate t)) (log w) (log (snd s'))
         /\ (_epoch t <= _epoch (fst s') <= _epoch t + 1))
        /\ match r with
           | Ret _ =>
               exists t1, ready n_batch t w t1
                 /\ fst s' = timed time_stamp (saved_upto 3 t1)
                 /\ time_calls (snd s') = S (time_calls w)
                 /\ draws (log (snd s')) = draws (log w) ++ [EvDraw (_epoch t)]
           | Exc e PhTrain =>
               fst s' = t /\ time_calls (snd s') = time_calls w
               /\ draws (log (snd s')) = draws (log w)
           | Exc e PhEval =>
               durable (fst s') = durable t /\ time_calls (snd s') = time_calls w
               /\ draws (log (snd s')) = draws (log w)
           | Exc e PhCommit =>
               exists t1 p, ready n_batch t w t1 /\ (p <= 3)%nat
                 /\ time_calls (snd s') = S (time_calls w)
                 /\ draws (log (snd s')) = draws (log w) ++ [EvDraw (_epoch t)]
                 /\ if is_interrupt e
                    then fst s' = timed time_stamp (retried (saved_upto p t1))
                         /\ training (snd s') = _initial_mode t
                    else fst s' = timed time_stamp (saved_upto p t1)
           | Exc e PhRecover => True
           | Exc e PhTiming => True
           | Exc e _ => False
           end) (t, w).
Proof.
  unfold epoch_body. apply wp_bind.
  eapply wp_mono; [apply train_phase_spec|].
  intros r1 [t1 w1] (Hph1 & Htc1 & Hext1 & Hr1). wsimpl.
  pose proof (filter_extends is_draw _ _ _ (train_event_not_draw _) Hext1) as Hd1.
  destruct r1 as [nb1|e1 ph1].
  2:{ destruct Hr1 as (-> & ->). split; [|auto].
      repeat split; try lia.
      eapply extends_weaken; [|exact Hext1]. intros ev Hev. left. exact Hev. }
  destruct Hr1 as (n & Hn & -> & -> & Htr1 & Hit1 & Hlog1).
  apply wp_bind.
  eapply wp_mono; [apply eval_phase_spec|].
  intros r2 [t2 w2] (Hc2 & Hdu2 & Htl2 & Hts2 & Htc2 & Hext2 & Hr2). wsimpl.
  change (config t2 = config t) in Hc2. change (durable t2 = durable t) in Hdu2.
  pose proof (filter_extends is_draw _ _ _ eval_event_not_draw Hext2) as Hd2.
  assert (Hlog2 : extends (run_event (_clip_rate t)) (log w) (log w2)).
  { eapply extends_trans.
    - eapply extends_weaken; [|exact Hext1]. intros ev Hev. left. exact Hev.
    - eapply extends_weaken; [|exact Hext2]. intros ev Hev. right. left. exact Hev. }
  assert (Hready : ready n_batch t w t2).
  { split; [exact Hc2|]. split; [exact Hdu2|]. split; [exact Hts2|].
    exists n. split; [exact Hn | exact Htl2]. }
  assert (Hfl : _epoch t2 = _epoch t /\ _completed t2 = _completed t).
  { unfold durable in Hdu2. wsimpl. split; congruence. }
  destruct Hfl as (Hep2 & Hcp2).
  destruct r2 as [nb2|e2 ph2].
  2:{ subst ph2. split.
      - repeat split; try assumption; lia.
      - unfold draws. repeat split; try assumption; congruence. }
  apply wp_bind.
  eapply wp_mono; [apply save_block_spec|].
  intros r3 [t3 w3] ((Hc3 & Hcp3 & Hext3 & Hep3) & Hr3). wsimpl.
  assert (Hcommon : config t3 = config t /\ _completed t3 = _completed t
            /\ extends (run_event (_clip_rate t)) (log w) (log w3)
            /\ _epoch t <= _epoch t3 <= _epoch t + 1).
  { repeat split; try congruence; try lia.
    eapply extends_trans; [exact Hlog2|].
    eapply extends_weaken; [|exact Hext3]. intros ev Hev. right. right. exact Hev. }
  unfold draws in *. rewrite Htc2, Htc1, Hd2, Hd1, Hep2 in Hr3.
  destruct r3 as [[]|e3 ph3].
  - apply wp_ret. wsimpl. split; [exact Hcommon|].
    destruct Hr3 as (-> & Htr3 & Htc3 & Hd3).
    exists t2. split; [exact Hready|]. repeat split; assumption.
  - wsimpl. split; [exact Hcommon|].
    destruct ph3; try contradiction; try exact I.
    destruct Hr3 as (p & Hp & Htc3 & Hd3 & Hr3).
    exists t2, p. split; [exact Hready|]. repeat (split; [assumption|]).
    destruct (is_interrupt e3); [|exact Hr3].
    destruct Hr3 as (-> & Htr3). split; [reflexivity|].
    unfold config in Hc2. congruence.
Qed.

(** ** The invariant across an epoch *)

Lemma stable_same (t t1 : TorchTrainer) :
  config t1 = config t -> durable t1 = durable t -> stable t -> stable t1.
Proof.
  unfold config, durable, stable. intros [= ? ? ? ? ? ? ? Ht Hv ?] [= Ha Hb Hc He ? ?].
  rewrite Ha, Hb, Hc, He, Ht, Hv. trivial.
Qed.

Lemma stable_next (t t' : TorchTrainer) :
  stable t ->
  history_lengths t' = history_lengths (saved_upto 3 t) ->
  histories_apart t t' ->
  forall time_stamp, stable (timed time_stamp t').
Proof.
  intros (Htr & Hva & Hte) Hlen Hap ts.
  destruct (apart_flags _ _ Hap) as (Hv & Ht & He & _).
  rewrite saved_lengths in Hlen. unfold history_lengths in Hlen.
  injection Hlen as Ha Hb Hc.
  unfold stable, timed. wsimpl. rewrite Ha, Hb, Hc, Hv, Ht, He.
  destruct (_has_valid t), (_has_test t); repeat split; lia.
Qed.

Lemma stable_saved (t : TorchTrainer) time_stamp :
  stable t -> stable (timed time_stamp (saved_upto 3 t)).
Proof.
  intros H. apply stable_next with (t := t);
    [exact H | reflexivity | apply histories_apart_saved].
Qed.

Lemma stable_retried p (t : TorchTrainer) time_stamp :
  (p <= 3)%nat -> stable t -> (_has_test t = true -> _has_valid t = true) ->
  stable (timed time_stamp (retried (saved_upto p t))).
Proof.
  intros Hp H Himp. apply stable_next with (t := t).
  - exact H.
  - apply retried_saved_lengths; assumption.
  - eapply histories_apart_trans; [apply histories_apart_saved | apply histories_apart_retried].
Qed.

(** ** The loop over the epochs *)

Lemma after_failure_from (t t1 : TorchTrainer) e ph t' w' :
  config t1 = config t -> (stable t -> stable t1) ->
  after_failure t1 e ph t' w' -> after_failure t e ph t' w'.
Proof.
  unfold config. intros [= ? ? ? ? ? ? ? Ht Hv Hm] Hst.
  unfold after_failure. rewrite Ht, Hv, Hm. destruct ph; intuition.
Qed.

Lemma epochs_spec k : forall n_batch (t : TorchTrainer) w,
  wp (epochs k n_batch)
     (fun r s' =>
        config (fst s') = config t /\ _completed (fst s') = _completed t
        /\ extends (run_event (_clip_rate t)) (log w) (log (snd s'))
        /\ (_epoch t <= _epoch (fst s') <= _epoch t + Z.of_nat k)
        /\ match r with
           | Ret _ => _epoch (fst s') = _epoch t + Z.of_nat k /\ (stable t -> stable (fst s'))
           | Exc e ph => ph <> PhFinish /\ after_failure t e ph (fst s') (snd s')
           end) (t, w).
Proof.
  induction k as [|k IH]; intros n_batch t w.
  - apply wp_ret. wsimpl.
    split; [reflexivity|]. split; [reflexivity|]. split; [apply extends_refl|].
    cbn [Z.of_nat]. split; [lia|]. split; [lia | trivial].
  - cbn [epochs]. apply wp_bind.
    eapply wp_mono; [apply epoch_body_spec|].
    intros r1 [t1 w1] ((Hc1 & Hcp1 & Hext1 & Hep1) & Hr1). wsimpl.
    destruct r1 as [nb1|e ph].
    + destruct Hr1 as (t0 & (Hc0 & Hd0 & Hts0 & _) & -> & _).
      assert (He1 : _epoch (timed (time_source (time_calls w)) (saved_upto 3 t0))
                    = _epoch t + 1).
      { destruct (apart_flags _ _ (histories_apart_saved 3 t0)) as (_ & _ & He & _).
        unfold timed. wsimpl. rewrite He. unfold durable in Hd0. injection Hd0 as _ _ _ Hd0 _ _.
        rewrite Hd0. reflexivity. }
      assert (Hst1 : stable t -> stable (timed (time_source (time_calls w)) (saved_upto 3 t0))).
      { intros Hst. apply stable_saved. apply stable_same with (t := t); assumption. }
      assert (Hclip : _clip_rate (timed (time_source (time_calls w)) (saved_upto 3 t0))
                      = _clip_rate t).
      { unfold config in Hc1. congruence. }
      eapply wp_mono; [apply IH|].
      intros r2 [t2 w2] (Hc2 & Hcp2 & Hext2 & Hep2 & Hr2). wsimpl.
      rewrite Hclip in Hext2.
      split; [congruence|]. split; [congruence|].
      split; [eapply extends_trans; eassumption|].
      split; [lia|].
      destruct r2 as [[]|e ph].
      * destruct Hr2 as (He2 & Hst2). split; [lia | auto].
      * destruct Hr2 as (Hph & Haf). split; [exact Hph|].
        eapply after_failure_from; [exact Hc1 | exact Hst1 | exact Haf].
    + split; [exact Hc1|]. split; [exact Hcp1|]. split; [exact Hext1|]. split; [lia|].
      unfold after_failure. destruct ph; try contradiction; try exact I.
      * destruct Hr1 as (-> & _). split; [discriminate | trivial].
      * destruct Hr1 as (Hd & _). split; [discriminate|].
        intros Hst. apply stable_same with (t := t); assumption.
      * destruct Hr1 as (t0 & p & (Hc0 & Hd0 & _) & Hp & _ & _ & Hr1).
        split; [discriminate|]. split.
        -- intros Hi. rewrite Hi in Hr1. apply Hr1.
        -- intros Hst Hi Himp. rewrite Hi in Hr1. destruct Hr1 as (-> & _).
           apply stable_retried; [exact Hp | |].
           ++ apply stable_same with (t := t); assumption.
           ++ unfold config in Hc0. injection Hc0 as _ _ _ _ _ _ _ Ht Hv _.
              rewrite Ht, Hv. exact Himp.
      * split; [discriminate | exact I].
      * split; [discriminate | exact I].
Qed.

(** ** [train] as a whole *)

Lemma train_spec (t : TorchTrainer) w :
  wp train
     (fun r s' =>
        config (fst s') = config t
        /\ extends (run_event (_clip_rate t)) (log w) (log (snd s'))
        /\ (_epoch t <= _epoch (fst s') <= Z.max (_epoch t) (_n_epochs t + 1))
        /\ match r with
           | Ret _ =>
               _completed (fst s') = true /\ training (snd s') = _initial_mode t
               /\ _epoch (fst s') = Z.max (_epoch t) (_n_epochs t + 1)
               /\ (stable t -> stable (fst s'))
           | Exc e ph =>
               (ph <> PhFinish -> _completed (fst s') = _completed t)
               /\ (ph = PhFinish ->
                   _completed (fst s') = true
                   /\ _epoch (fst s') = Z.max (_epoch t) (_n_epochs t + 1))
               /\ after_failure t e ph (fst s') (snd s')
           end) (t, w).
Proof.
  unfold train. wp_run.
  - split; [reflexivity|]. split; [extends_tac|]. split; [lia|].
    split; [reflexivity|]. split; [discriminate|]. simpl. trivial.
  - eapply wp_mono; [apply epochs_spec|].
    intros r1 [t1 w1] (Hc1 & Hcp1 & Hext1 & Hep1 & Hr1). wsimpl.
    change (config t1 = config t) in Hc1.
    assert (Hext : extends (run_event (_clip_rate t)) (log w) (log w1)).
    { eapply extends_trans; [|exact Hext1].
      apply extends_snoc; [apply extends_refl|]. right. right. exact I. }
    destruct r1 as [[]|e ph].
    + destruct Hr1 as (He1 & Hst1). wp_run.
      * split; [exact Hc1|]. split; [extends_tac|]. split; [lia|].
        split; [intros Hne; destruct Hne; reflexivity|].
        split; [intros _; split; [reflexivity | lia]|].
        simpl. auto.
      * split; [exact Hc1|].
        split; [apply extends_snoc; [extends_tac|]; right; right; exact I|].
        split; [lia|]. split; [reflexivity|].
        split; [unfold config in Hc1; congruence|]. split; [lia | auto].
    + destruct Hr1 as (Hph & Haf).
      split; [exact Hc1|]. split; [exact Hext|]. split; [lia|].
      split; [intros _; exact Hcp1|]. split; [intros ->; contradiction|].
      eapply after_failure_from; [| |exact Haf]; [reflexivity | trivial].
Qed.

(** * The claims *)

(** C8. [clear_history] empties the three histories and resets [_epoch] to 1,
    [_completed] to [False] and [_time_elapsed] to 0, whatever the trainer was;
    the configuration is left as it is. *)
Theorem clear_history_resets (t : TorchTrainer) :
  histories (clear_history t) = ([], [], [])
  /\ _epoch (clear_history t) = 1
  /\ _completed (clear_history t) = false
  /\ _time_elapsed (clear_history t) = 0%float
  /\ config (clear_history t) = config t.
Proof.
  repeat split.
Qed.

(** C6. An epoch that runs to its end over a pass of at least one batch
    commits to the train history the sum of the batch losses, added from left
    to right, divided by the number of batches; for the losses 2, 4 and 6 that
    value is 4. *)
Theorem mean_aggregation n_batch (t : TorchTrainer) w n_batch' t' w' :
  epoch_body n_batch (t, w) = (Ret n_batch', (t', w')) ->
  _train_iterator t (iters w) <> [] ->
  _train_loss_history t'
  = _train_loss_history t ++ [mean (map (loss_of t) (_train_iterator t (iters w)))]
  /\ mean [2; 4; 6]%float = 4%float.
Proof.
  intros Hrun Hne. split; [|reflexivity].
  pose proof (wp_elim _ _ _ _ _ Hrun (epoch_body_spec n_batch t w)) as (_ & Hr).
  cbn beta iota zeta in Hr. wsimpl.
  destruct Hr as (t1 & (Hc & Hd & _ & n & Hn & Hl) & -> & _).
  unfold durable in Hd. injection Hd as Hh _ _ _ _ _.
  assert (Hn' : n = length (_train_iterator t (iters w))).
  { destruct (_train_iterator t (iters w)) as [|b bs]; [contradiction|].
    cbn [last_index length] in *. injection Hn as <-. lia. }
  unfold timed, saved_upto.
  destruct (_has_valid t1), (_has_test t1); wsimpl;
    rewrite Hl, Hh; unfold mean; rewrite length_map, Hn'; reflexivity.
Qed.

(** C7. When the pass over the train source that a call of [train] starts with
    yields no batch, [n_batch] is still unbound at the division of line 295:
    the call raises before anything is appended to a history and before
    [_epoch] is advanced, and what it raises is [UnboundLocalError] unless a
    collaborator failed first. *)
Theorem empty_train_source (t : TorchTrainer) w r t' w' :
  train (t, w) = (r, (t', w')) ->
  _epoch t <= _n_epochs t ->
  _train_iterator t (iters w) = [] ->
  returned r = false
  /\ histories t' = histories t
  /\ _epoch t' = _epoch t
  /\ ((forall k, fault_at k = None) -> r = Exc UnboundLocalError PhTrain).
Proof.
  intros Hrun Hle Hempty.
  refine (wp_elim _ (fun r s' => returned r = false /\ histories (fst s') = histories t
             /\ _epoch (fst s') = _epoch t
             /\ ((forall k, fault_at k = None) -> r = Exc UnboundLocalError PhTrain))
            _ _ _ Hrun _).
  unfold train. wp_run.
  - repeat split. intros Hno. rewrite Hno in H. discriminate.
  - destruct (Z.to_nat (_n_epochs t + 1 - _epoch t)) as [|k] eqn:Hk; [lia|].
    cbn [epochs]. unfold epoch_body, train_phase. wp_run.
    + repeat split. intros Hno. rewrite Hno in H0. discriminate.
    + repeat split. intros Hno. rewrite Hno in H1. discriminate.
    + rewrite Hempty. cbn [train_loop]. unfold div_n_batch. wp_run.
      repeat split.
Qed.

Lemma run_event_unclipped ev : run_event None ev -> is_clip ev = false.
Proof.
  intros [H | [H | H]].
  - destruct ev; simpl in *; try reflexivity. discriminate.
  - apply eval_event_not_clip. exact H.
  - apply save_event_not_clip. exact H.
Qed.

Lemma clips_step_traces {B} c (batches : list B) :
  clips (flat_map (fun _ => step_trace (Some c)) batches)
  = repeat (EvClip c) (length batches).
Proof.
  induction batches as [|b bs IH]; [reflexivity|].
  cbn [flat_map length repeat]. unfold clips in *. rewrite List.filter_app, IH.
  reflexivity.
Qed.

(** C9. A training phase that runs to its end makes, for each batch of the
    pass and in this order, the calls zero_grad, forward, calc_loss, backward,
    then clip_grad_norm_ with [clip_rate] exactly when [clip_rate] is a number,
    then step and item: one clip call per batch with a threshold, none
    without.  With no threshold a whole call of [train] makes no clip call,
    however it ends; and the evaluation phase never makes one. *)
Theorem gradient_clipping_gating :
  (forall n_batch (t : TorchTrainer) w n_batch' s',
      train_phase n_batch (t, w) = (Ret n_batch', s') ->
      log (snd s') = log w ++ [EvSetMode true; EvIter Train]
                     ++ flat_map (fun _ => step_trace (_clip_rate t))
                          (_train_iterator t (iters w)))
  /\ step_trace None = [EvZeroGrad; EvForward; EvCalcLoss; EvBackward; EvStep; EvItem]
  /\ (forall c, step_trace (Some c)
                = [EvZeroGrad; EvForward; EvCalcLoss; EvBackward; EvClip c; EvStep; EvItem])
  /\ (forall n_batch (t : TorchTrainer) w n_batch' s' c,
         train_phase n_batch (t, w) = (Ret n_batch', s') ->
         _clip_rate t = Some c ->
         clips (log (snd s'))
         = clips (log w) ++ repeat (EvClip c) (length (_train_iterator t (iters w))))
  /\ (forall (t : TorchTrainer) w r s',
         train (t, w) = (r, s') ->
         _clip_rate t = None ->
         clips (log (snd s')) = clips (log w))
  /\ (forall n_batch (t : TorchTrainer) w r s',
         eval_phase n_batch (t, w) = (r, s') ->
         clips (log (snd s')) = clips (log w)).
Proof.
  assert (Hphase : forall n_batch (t : TorchTrainer) w n_batch' s',
             train_phase n_batch (t, w) = (Ret n_batch', s') ->
             log (snd s') = log w ++ [EvSetMode true; EvIter Train]
                            ++ flat_map (fun _ => step_trace (_clip_rate t))
                                 (_train_iterator t (iters w))).
  { intros n_batch t w n_batch' s' Hrun.
    pose proof (wp_elim _ _ _ _ _ Hrun (train_phase_spec n_batch t w)) as (_ & _ & _ & Hr).
    cbn beta iota zeta in Hr. destruct Hr as (n & _ & _ & _ & _ & _ & Hlog). exact Hlog. }
  split; [exact Hphase|]. split; [reflexivity|]. split; [reflexivity|].
  split; [|split].
  - intros n_batch t w n_batch' s' c Hrun Hc.
    rewrite (Hphase _ _ _ _ _ Hrun), Hc. unfold clips.
    rewrite !List.filter_app. cbn [List.filter is_clip app].
    apply f_equal. apply clips_step_traces.
  - intros t w r s' Hrun Hc.
    pose proof (wp_elim _ _ _ _ _ Hrun (train_spec t w)) as (_ & Hext & _).
    rewrite Hc in Hext.
    exact (filter_extends is_clip _ _ _ run_event_unclipped Hext).
  - intros n_batch t w r s' Hrun.
    pose proof (wp_elim _ _ _ _ _ Hrun (eval_phase_spec n_batch t w))
      as (_ & _ & _ & _ & _ & Hext & _).
    exact (filter_extends is_clip _ _ _ eval_event_not_clip Hext).
Qed.

(** C2, amended. When [train] returns, and when a [KeyboardInterrupt] raised
    in the commit (line 321) comes out of it, the network is in the mode that
    [__init__] recorded. *)
Theorem mode_restored (t : TorchTrainer) w r t' w' :
  train (t, w) = (r, (t', w')) ->
  r = Ret tt \/ r = Exc KeyboardInterrupt PhCommit ->
  training w' = _initial_mode t /\ _initial_mode t' = _initial_mode t.
Proof.
  intros Hrun Hr.
  pose proof (wp_elim _ _ _ _ _ Hrun (train_spec t w)) as (Hc & _ & _ & Hpost).
  wsimpl. split; [|unfold config in Hc; congruence].
  destruct Hr as [-> | ->].
  - apply Hpost.
  - destruct Hpost as (_ & _ & Hmode & _). apply Hmode. reflexivity.
Qed.

(** C3. A [KeyboardInterrupt] raised in the commit comes out of the epoch only
    after the finally block has run: [_time_elapsed] has grown by the time
    since the last stamp, [draw_info] has been called once, and [_epoch] has
    advanced.  Whatever the training phase raises comes out of the epoch as
    it is, with no slot of the trainer changed, no call of [time()] and no
    call of [draw_info]; and a call to a collaborator that fails raises where
    it is made. *)
Theorem finally_contract :
  (forall n_batch (t : TorchTrainer) w e t' w',
      epoch_body n_batch (t, w) = (Exc e PhCommit, (t', w')) ->
      is_interrupt e = true ->
      _time_elapsed t'
      = (_time_elapsed t + (time_source (time_calls w) - __time_stamp t))%float
      /\ time_calls w' = S (time_calls w)
      /\ draws (log w') = draws (log w) ++ [EvDraw (_epoch t)]
      /\ _epoch t' = _epoch t + 1)
  /\ (forall n_batch (t : TorchTrainer) w e ph s',
         train_phase n_batch (t, w) = (Exc e ph, s') ->
         epoch_body n_batch (t, w) = (Exc e ph, s')
         /\ ph = PhTrain
         /\ fst s' = t
         /\ time_calls (snd s') = time_calls w
         /\ draws (log (snd s')) = draws (log w))
  /\ (forall ev (t : TorchTrainer) w e,
         fault_at (ticks w) = Some e ->
         call ev (t, w) = (Exc e (phase w), (t, set_ticks (S (ticks w)) w))).
Proof.
  split; [|split].
  3:{ intros ev t w e Hf. unfold call, bind, checkpoint. cbn. rewrite Hf. reflexivity. }
  - intros n_batch t w e t' w' Hrun Hint.
    pose proof (wp_elim _ _ _ _ _ Hrun (epoch_body_spec n_batch t w)) as (_ & Hr).
    cbn beta iota zeta in Hr. wsimpl. rewrite Hint in Hr.
    destruct Hr as (t1 & p & (Hc & Hd & Hts & _) & Hp & Htc & Hdr & -> & _).
    pose proof (histories_apart_trans _ _ _ (histories_apart_saved p t1)
                  (histories_apart_retried (saved_upto p t1))) as (_ & He & _ & Hel & Hst).
    unfold durable in Hd. injection Hd as _ _ _ Hep _ Hela.
    unfold timed. wsimpl. rewrite Hel, Hst, He, Hts, Hep, Hela. repeat split; assumption.
  - intros n_batch t w e ph s' Hrun.
    assert (Hbody : epoch_body n_batch (t, w) = (Exc e ph, s')).
    { unfold epoch_body, bind. cbv beta. rewrite Hrun. reflexivity. }
    split; [exact Hbody|].
    pose proof (wp_elim _ _ _ _ _ Hrun (train_phase_spec n_batch t w))
      as (_ & Htc & Hext & -> & Ht).
    repeat split; try assumption.
    exact (filter_extends is_draw _ _ _ (train_event_not_draw _) Hext).
Qed.

Lemma on_course_train (t : TorchTrainer) w r s' :
  train (t, w) = (r, s') -> on_course t -> on_course (fst s').
Proof.
  intros Hrun (Hep & Hcp).
  pose proof (wp_elim _ _ _ _ _ Hrun (train_spec t w)) as (Hc & _ & Hep' & Hpost).
  assert (Hn : _n_epochs (fst s') = _n_epochs t) by (unfold config in Hc; congruence).
  unfold on_course. rewrite Hn. split; [lia|].
  destruct r as [[]|e ph].
  - destruct Hpost as (_ & _ & He & _). intros _. lia.
  - destruct Hpost as (Hsame & Hfin & _).
    destruct ph; try (rewrite Hsame by discriminate; intros H; specialize (Hcp H); lia).
    destruct (Hfin eq_refl) as (_ & He). intros _. lia.
Qed.

Lemma reachable_on_course (t : TorchTrainer) :
  reachable time_source fault_at any_outcome t -> on_course t.
Proof.
  induction 1 as [| t _ IH | t w r s' _ IH Hrun _].
  - unfold on_course. cbn. split; [lia | discriminate].
  - unfold on_course. cbn. split; [lia | discriminate].
  - eapply on_course_train; eassumption.
Qed.

(** C5. [_completed] is [False] after [__init__]; in every trainer a caller
    can come to hold it is [False] as long as [_epoch] has not passed
    [_n_epochs]; a call of [train] that raises from anywhere in the loop leaves
    it as it was, and one that raises after the loop has found it set with the
    last epoch done; a call that returns has set it, with [_epoch] one past
    [_n_epochs] when [_n_epochs] is not negative. *)
Theorem completion_flag :
  (forall network_training (train_function : Batch -> FwdResult) loss_function
          train_iterator test_iterator valid_iterator n_epochs clip_rate,
      _completed (__init__ network_training train_function loss_function train_iterator
                    test_iterator valid_iterator n_epochs clip_rate) = false)
  /\ (forall t : TorchTrainer,
         reachable time_source fault_at any_outcome t ->
         _epoch t <= _n_epochs t -> _completed t = false)
  /\ (forall (t : TorchTrainer) w e ph s',
         train (t, w) = (Exc e ph, s') ->
         (ph <> PhFinish -> _completed (fst s') = _completed t)
         /\ (ph = PhFinish ->
             _completed (fst s') = true
             /\ _epoch (fst s') = Z.max (_epoch t) (_n_epochs t + 1)))
  /\ (forall (t : TorchTrainer) w s',
         reachable time_source fault_at any_outcome t ->
         train (t, w) = (Ret tt, s') ->
         _completed (fst s') = true
         /\ (0 <= _n_epochs t -> _epoch (fst s') = _n_epochs t + 1)).
Proof.
  split; [reflexivity|]. split; [|split].
  - intros t Hreach Hle.
    destruct (reachable_on_course t Hreach) as (_ & Hcp).
    destruct (_completed t); [|reflexivity]. specialize (Hcp eq_refl). lia.
  - intros t w e ph s' Hrun.
    pose proof (wp_elim _ _ _ _ _ Hrun (train_spec t w)) as (_ & _ & _ & Hsame & Hfin & _).
    split; assumption.
  - intros t w s' Hreach Hrun.
    destruct (reachable_on_course t Hreach) as (Hep & _).
    pose proof (wp_elim _ _ _ _ _ Hrun (train_spec t w)) as (_ & _ & _ & Hcp & _ & He & _).
    split; [exact Hcp|]. intros Hn. lia.
Qed.

Lemma reachable_stable (t : TorchTrainer) :
  reachable time_source fault_at clean t -> stable t.
Proof.
  induction 1 as [| t _ IH | t w r s' _ IH Hrun Hclean].
  - unfold stable. cbn. destruct test_iterator, valid_iterator; repeat split.
  - unfold stable. cbn. destruct (_has_valid t), (_has_test t); repeat split.
  - pose proof (wp_elim _ _ _ _ _ Hrun (train_spec t w)) as (_ & _ & _ & Hpost).
    destruct r as [[]|e ph].
    + apply Hpost. exact IH.
    + destruct Hpost as (_ & _ & Haf). unfold after_failure in Haf. unfold clean in Hclean.
      destruct ph; try contradiction; try (apply Haf; exact IH).
      destruct Hclean as (Hint & Himp). apply Haf; assumption.
Qed.

(** C4, amended. In every trainer a caller can come to hold through calls of
    [train] that returned, or raised from before the commit or from after the
    loop, or let out a [KeyboardInterrupt] raised in the commit of a trainer
    whose test source comes with a validation source: the train history has
    [_epoch - 1] entries, the validation history as many if there is a
    validation source and none otherwise, the test history likewise, and the
    test history is never the longer of the two when both are configured. *)
Theorem history_length_invariant (t : TorchTrainer) :
  reachable time_source fault_at clean t ->
  Z.of_nat (length (_train_loss_history t)) = _epoch t - 1
  /\ length (_valid_loss_history t)
     = (if _has_valid t then length (_train_loss_history t) else 0%nat)
  /\ length (_test_loss_history t)
     = (if _has_test t then length (_train_loss_history t) else 0%nat)
  /\ (_has_valid t = true -> _has_test t = true ->
      (length (_test_loss_history t) <= length (_valid_loss_history t))%nat).
Proof.
  intros Hreach. destruct (reachable_stable t Hreach) as (Htr & Hva & Hte).
  repeat split; try assumption.
  intros Hv Ht. rewrite Hv in Hva. rewrite Ht in Hte. lia.
Qed.

(** X1. The retry after an interrupted commit, where it works.  An epoch that
    runs to its end leaves each configured history one entry longer; so does
    an epoch whose commit was cut by a [KeyboardInterrupt], wherever in the
    commit it came, when the trainer was in step and has a validation source
    or no test source. *)
Theorem interrupted_commit_idempotent n_batch (t : TorchTrainer) w r t' w' :
  epoch_body n_batch (t, w) = (r, (t', w')) ->
  stable t ->
  (exists n_batch', r = Ret n_batch')
  \/ (r = Exc KeyboardInterrupt PhCommit /\ (_has_test t = true -> _has_valid t = true)) ->
  history_lengths t'
  = (S (length (_train_loss_history t)),
     if _has_valid t then S (length (_valid_loss_history t))
     else length (_valid_loss_history t),
     if _has_test t then S (length (_test_loss_history t))
     else length (_test_loss_history t)).
Proof.
  intros Hrun Hst Hr.
  pose proof (wp_elim _ _ _ _ _ Hrun (epoch_body_spec n_batch t w)) as (_ & Hpost).
  cbn beta iota zeta in Hpost. wsimpl.
  assert (Hlen : forall t1, config t1 = config t -> durable t1 = durable t ->
            history_lengths (saved_upto 3 t1)
            = (S (length (_train_loss_history t)),
               if _has_valid t then S (length (_valid_loss_history t))
               else length (_valid_loss_history t),
               if _has_test t then S (length (_test_loss_history t))
               else length (_test_loss_history t))).
  { intros t1 Hc Hd. rewrite saved_lengths.
    unfold config in Hc. injection Hc as _ _ _ _ _ _ _ Ht Hv _.
    unfold durable in Hd. injection Hd as Ha Hb Hc' _ _ _.
    rewrite Ht, Hv, Ha, Hb, Hc'. reflexivity. }
  destruct Hr as [(n_batch' & ->) | (-> & Himp)].
  - destruct Hpost as (t1 & (Hc & Hd & _) & -> & _).
    exact (Hlen t1 Hc Hd).
  - cbn [is_interrupt] in Hpost.
    destruct Hpost as (t1 & p & (Hc & Hd & _) & Hp & _ & _ & -> & _).
    rewrite <- (Hlen t1 Hc Hd).
    refine (retried_saved_lengths p t1 Hp _ _).
    + apply stable_same with (t := t); assumption.
    + unfold config in Hc. injection Hc as _ _ _ _ _ _ _ Ht Hv _.
      rewrite Ht, Hv. exact Himp.
Qed.


(** * Further properties *)

Lemma wp_conj {A} (m : M A) (Q Q' : outcome A -> St -> Prop) s :
  wp m Q s -> wp m Q' s -> wp m (fun r s' => Q r s' /\ Q' r s') s.
Proof. unfold wp. auto. Qed.

Lemma last_index_bound {B} (batches : list B) i n_batch :
  n_batch <> None \/ batches <> [] -> exists n, last_index batches i n_batch = Some n.
Proof.
  intros H. destruct batches as [|b bs]; cbn [last_index]; [|eauto].
  destruct n_batch as [n|]; [eauto|]. destruct H; contradiction.
Qed.

(** ** A run in which nothing fails *)










Lemma flags_ok_same (t t' : TorchTrainer) : config t' = config t -> flags_ok t -> flags_ok t'.
Proof.
  unfold config, flags_ok. intros [= _ _ _ Hti Hvi _ _ Ht Hv _]. rewrite Hti, Hvi, Ht, Hv. trivial.
Qed.





(** ** Histories only grow, and what a run can raise *)

Lemma bind_ret_inv {A B} (m : M A) (k : A -> M B) (s : St) b s' :
  bind m k s = (Ret b, s') -> exists a s1, m s = (Ret a, s1) /\ k a s1 = (Ret b, s').
Proof.
  unfold bind. destruct (m s) as [[a|e ph] s1]; [eauto | discriminate].
Qed.

Lemma grown_refl (t : TorchTrainer) : grown t t.
Proof.
  split; [reflexivity|]. exists [], [], []. rewrite !app_nil_r. repeat split.
Qed.

Lemma grown_trans (t1 t2 t3 : TorchTrainer) : grown t1 t2 -> grown t2 t3 -> grown t1 t3.
Proof.
  intros (Hc1 & a1 & b1 & c1 & Ha1 & Hb1 & Hc1' & Hv1 & Ht1)
         (Hc2 & a2 & b2 & c2 & Ha2 & Hb2 & Hc2' & Hv2 & Ht2).
  assert (Hfl : _has_valid t2 = _has_valid t1 /\ _has_test t2 = _has_test t1).
  { unfold config in Hc1. split; congruence. }
  destruct Hfl as (Hv & Ht).
  split; [congruence|]. exists (a1 ++ a2), (b1 ++ b2), (c1 ++ c2).
  rewrite Ha2, Ha1, Hb2, Hb1, Hc2', Hc1', <- !app_assoc. repeat split.
  - intros H. rewrite Hv1, Hv2 by congruence. reflexivity.
  - intros H. rewrite Ht1, Ht2 by congruence. reflexivity.
Qed.

Lemma grown_same (t t' : TorchTrainer) :
  config t' = config t -> durable t' = durable t -> grown t t'.
Proof.
  intros Hc Hd. unfold durable in Hd. injection Hd as Ha Hb Hc' _ _ _.
  split; [exact Hc|]. exists [], [], []. rewrite !app_nil_r. repeat split; assumption.
Qed.

(** A trainer built from [t] by appends: each history is the old one or the
    old one with an entry, and a gated append happened under its flag. *)
Ltac grown_tac :=
  split; [reflexivity|]; eexists _, _, _; wsimpl;
  split; [first [reflexivity | symmetry; apply app_nil_r]|];
  split; [first [reflexivity | symmetry; apply app_nil_r]|];
  split; [first [reflexivity | symmetry; apply app_nil_r]|];
  split; intros Hf;
  first [ reflexivity
        | exfalso; rewrite Hf in *; cbn [andb] in *; discriminate ].

Ltac blame_tac :=
  first [ exact I | reflexivity
        | match goal with
          | H : fault_at ?k = Some ?e |- raised_by_oracle _ ?e => exists k; exact H
          end ].

Lemma try_save_more (t : TorchTrainer) w :
  wp __try_save_loss_history
     (fun r s' =>
        grown t (fst s') /\ iters (snd s') = iters w
        /\ match r with
           | Ret _ => True
           | Exc e _ => raised_by_oracle fault_at e
           end) (t, w).
Proof.
  unfold __try_save_loss_history. wp_run.
  all: split; [grown_tac | split; [reflexivity | blame_tac]].
Qed.

Lemma retry_more (t : TorchTrainer) w :
  wp __retry_save_loss_history
     (fun r s' =>
        grown t (fst s') /\ iters (snd s') = iters w
        /\ match r with
           | Ret _ => True
           | Exc e _ => raised_by_oracle fault_at e
           end) (t, w).
Proof.
  unfold __retry_save_loss_history. wp_run.
  all: split; [grown_tac | split; [reflexivity | blame_tac]].
Qed.

Lemma on_interrupt_more e0 ph0 (t : TorchTrainer) w :
  wp (on_interrupt e0 ph0)
     (fun r s' =>
        grown t (fst s') /\ iters (snd s') = iters w
        /\ match r with
           | Ret _ => False
           | Exc e ph => raised_by_oracle fault_at e \/ (e = e0 /\ ph = ph0)
           end) (t, w).
Proof.
  unfold on_interrupt. wp_run.
  eapply wp_mono; [apply retry_more|].
  intros [[]|e ph] [t1 w1] (Hg & Hit & Hr); wsimpl.
  - wp_run; (split; [exact Hg|]; split; [exact Hit|]).
    + left. blame_tac.
    + right. split; reflexivity.
  - split; [exact Hg|]. split; [exact Hit|]. left. exact Hr.
Qed.

Lemma at_last_more (t : TorchTrainer) w :
  wp at_last
     (fun r s' =>
        let stopped :=
          PrimFloat.eqb (time_source (time_calls w) - __time_stamp t)%float 0%float in
        iters (snd s') = iters w
        /\ match r with
           | Ret _ => stopped = false
           | Exc e ph =>
               ph = PhTiming /\ _epoch (fst s') = _epoch t
               /\ draws (log (snd s')) = draws (log w)
               /\ (raised_by_oracle fault_at e \/ (e = ZeroDivisionError /\ stopped = true))
           end) (t, w).
Proof.
  unfold at_last, __calc_timing_stats, draw_info. wp_run.
  all: split; [reflexivity|]; try reflexivity.
  all: repeat (split;
               [first [ reflexivity
                      | unfold draws; rewrite List.filter_app; apply app_nil_r ]|]).
  all: first [left; blame_tac | right; split; reflexivity].
Qed.

Lemma commit_draws (l l' : list Event) :
  extends commit_event l l' -> draws l' = draws l.
Proof. apply filter_extends, commit_event_not_draw. Qed.

(** What the try statement of an epoch does whatever happens in it: it only
    appends to the histories, starts no pass over a source, and raises nothing
    of its own but [ZeroDivisionError], from the finally block, when the clock
    has not moved since the last stamp; and then it cannot end otherwise than
    by an exception from the finally block, with [_epoch] and the reports as
    they were. *)
Lemma save_block_more (t : TorchTrainer) w :
  wp save_block
     (fun r s' =>
        let stopped :=
          PrimFloat.eqb (time_source (time_calls w) - __time_stamp t)%float 0%float in
        grown t (fst s') /\ iters (snd s') = iters w
        /\ match r with
           | Ret _ => stopped = false
           | Exc e ph =>
               raised_by_oracle fault_at e
               \/ (e = ZeroDivisionError /\ ph = PhTiming /\ stopped = true)
           end
        /\ (stopped = true ->
            exists e, r = Exc e PhTiming /\ _epoch (fst s') = _epoch t
                      /\ draws (log (snd s')) = draws (log w))) (t, w).
Proof.
  assert (Hlast : forall (t1 : TorchTrainer) w1 (r0 : outcome unit),
             grown t t1 -> histories_apart t t1 -> iters w1 = iters w ->
             time_calls w1 = time_calls w -> draws (log w1) = draws (log w) ->
             match r0 with
             | Ret _ => True
             | Exc e _ => raised_by_oracle fault_at e
             end ->
             wp at_last
                (fun r2 s2 =>
                   let r := match r2 with Ret _ => r0 | Exc e ph => Exc e ph end in
                   let stopped :=
                     PrimFloat.eqb (time_source (time_calls w) - __time_stamp t)%float
                       0%float in
                   grown t (fst s2) /\ iters (snd s2) = iters w
                   /\ match r with
                      | Ret _ => stopped = false
                      | Exc e ph =>
                          raised_by_oracle fault_at e
                          \/ (e = ZeroDivisionError /\ ph = PhTiming /\ stopped = true)
                      end
                   /\ (stopped = true ->
                       exists e, r = Exc e PhTiming /\ _epoch (fst s2) = _epoch t
                                 /\ draws (log (snd s2)) = draws (log w))) (t1, w1)).
  { intros t1 w1 r0 Hg (_ & He & _ & _ & Hts) Hit Htc Hd Hr0.
    eapply wp_mono; [apply wp_conj; [apply at_last_spec | apply at_last_more]|].
    intros r2 [t2 w2] ((Hc2 & Hh2 & _) & (Hit2 & Hr2)). wsimpl.
    rewrite Htc, Hts in Hr2.
    assert (Hg2 : grown t t2).
    { eapply grown_trans; [exact Hg|].
      unfold histories in Hh2. injection Hh2 as Ha Hb Hc.
      split; [exact Hc2|]. exists [], [], []. rewrite !app_nil_r. repeat split; assumption. }
    split; [exact Hg2|]. split; [congruence|].
    destruct r2 as [[]|e2 ph2].
    - split.
      + destruct r0; [exact Hr2 | left; exact Hr0].
      + intros Hs. rewrite Hs in Hr2. discriminate Hr2.
    - destruct Hr2 as (-> & He2 & Hd2 & Hb2). split.
      + destruct Hb2 as [Hb2 | (-> & Hs)]; [left; exact Hb2 | right; auto].
      + intros _. exists e2. repeat split; congruence. }
  unfold save_block. apply wp_finally, wp_except, wp_bind, wp_enter. wsimpl.
  eapply wp_mono; [apply wp_conj; [apply try_save_spec | apply try_save_more]|].
  intros r [t1 w1] ((p & k & l & Hp & [= -> ->] & Hext & _) & (Hg & Hit & Hr)). wsimpl.
  destruct r as [[]|e ph].
  - eapply wp_mono; [apply (Hlast _ _ (Ret tt))|]; try reflexivity; try assumption.
    + apply histories_apart_saved.
    + apply commit_draws. exact Hext.
    + intros [[]|e2 ph2] s2 H2; exact H2.
  - destruct (is_interrupt e) eqn:Hint.
    + eapply wp_mono; [apply wp_conj; [apply on_interrupt_spec | apply on_interrupt_more]|].
      intros r1 [t2 w2] ((Hap & Htc & Hext1 & _) & (Hg1 & Hit1 & Hr1)). wsimpl.
      destruct r1 as [[]|e1 ph1]; [contradiction|].
      eapply wp_mono; [apply (Hlast _ _ (Exc e1 ph1))|].
      * eapply grown_trans; eassumption.
      * eapply histories_apart_trans; [apply histories_apart_saved | exact Hap].
      * exact Hit1.
      * exact Htc.
      * rewrite (commit_draws _ _ Hext1). apply commit_draws. exact Hext.
      * destruct Hr1 as [Hb | (-> & _)]; assumption.
      * intros [[]|e2 ph2] s2 H2; exact H2.
    + eapply wp_mono; [apply (Hlast _ _ (Exc e ph))|]; try reflexivity; try assumption.
      * apply histories_apart_saved.
      * apply commit_draws. exact Hext.
      * intros [[]|e2 ph2] s2 H2; exact H2.
Qed.

Lemma train_step_blame b (s : St) :
  wp (train_step b)
     (fun r _ => match r with Ret _ => True | Exc e _ => raised_by_oracle fault_at e end) s.
Proof.
  destruct s as [t w]. unfold train_step. wp_run; blame_tac.
Qed.

Lemma train_loop_blame batches : forall i train_loss n_batch (s : St),
  wp (train_loop batches i train_loss n_batch)
     (fun r _ => match r with Ret _ => True | Exc e _ => raised_by_oracle fault_at e end) s.
Proof.
  induction batches as [|b rest IH]; intros i train_loss n_batch s.
  - exact I.
  - cbn [train_loop]. apply wp_bind.
    eapply wp_mono; [apply train_step_blame|].
    intros [x|e ph] s1 Hr; [apply IH | exact Hr].
Qed.

Lemma eval_step_blame b (s : St) :
  wp (eval_step b)
     (fun r _ => match r with Ret _ => True | Exc e _ => raised_by_oracle fault_at e end) s.
Proof.
  destruct s as [t w]. unfold eval_step. wp_run; blame_tac.
Qed.

Lemma eval_loop_blame batches : forall i acc n_batch (s : St),
  wp (eval_loop batches i acc n_batch)
     (fun r _ => match r with Ret _ => True | Exc e _ => raised_by_oracle fault_at e end) s.
Proof.
  induction batches as [|b rest IH]; intros i acc n_batch s.
  - exact I.
  - cbn [eval_loop]. apply wp_bind.
    eapply wp_mono; [apply eval_step_blame|].
    intros [x|e ph] s1 Hr; [apply IH | exact Hr].
Qed.

Lemma train_phase_more n_batch (t : TorchTrainer) w :
  wp (train_phase n_batch)
     (fun r _ =>
        match r with
        | Ret _ => True
        | Exc e _ =>
            raised_by_oracle fault_at e
            \/ (e = UnboundLocalError /\ n_batch = None /\ _train_iterator t (iters w) = [])
        end) (t, w).
Proof.
  unfold train_phase. wp_run; try (left; blame_tac).
  eapply wp_mono; [apply wp_conj; [apply train_loop_spec | apply train_loop_blame]|].
  intros [x|e ph] [t1 w1] ((k & l & _ & _ & Hx) & Hr); [|left; exact Hr].
  destruct Hx as (-> & _). wsimpl. unfold div_n_batch. wp_run; [exact I|].
  right. split; [reflexivity|].
  destruct (_train_iterator t (iters w)); [|discriminate].
  cbn [last_index] in *. auto.
Qed.

Lemma eval_source_more src iterator store n (t : TorchTrainer) w :
  wp (eval_source src iterator store (Some n))
     (fun r s' =>
        match r with
        | Ret n_batch' => n_batch' <> None /\ iters (snd s') = S (iters w)
        | Exc e _ => raised_by_oracle fault_at e \/ (e = TypeError /\ iterator = None)
        end) (t, w).
Proof.
  unfold eval_source, enumerate. wp_run; try (left; blame_tac); try (right; auto; fail).
  eapply wp_mono; [apply wp_conj; [apply eval_loop_spec | apply eval_loop_blame]|].
  intros [x|e ph] [t1 w1] ((k & l & [= -> ->] & _ & Hx) & Hr); [|left; exact Hr].
  subst x. wsimpl.
  destruct (last_index_bound (b (iters w)) 1 (Some n)) as (n' & Hn); [left; discriminate|].
  unfold div_n_batch. rewrite Hn. wp_run. split; [discriminate | reflexivity].
Qed.

Lemma eval_phase_more n (t : TorchTrainer) w :
  wp (eval_phase (Some n))
     (fun r s' =>
        match r with
        | Ret n_batch' =>
            n_batch' <> None
            /\ iters (snd s')
               = (iters w + (if _has_valid t then 1 else 0)
                  + (if _has_test t then 1 else 0))%nat
        | Exc e _ => raised_by_oracle fault_at e \/ (e = TypeError /\ ~ flags_ok t)
        end) (t, w).
Proof.
  assert (Hbad_v : _has_valid t = true -> _valid_iterator t = None -> ~ flags_ok t).
  { intros Hv Hn (H & _). exact (H Hv Hn). }
  assert (Hbad_t : _has_test t = true -> _test_iterator t = None -> ~ flags_ok t).
  { intros Ht Hn (_ & H). exact (H Ht Hn). }
  unfold eval_phase. wp_run; try (left; blame_tac).
  all: try (split; [discriminate|];
            destruct (_has_valid t) eqn:?, (_has_test t) eqn:?; cbn in *;
            try discriminate; try congruence; lia).
  - eapply wp_mono; [apply wp_conj; [apply eval_source_spec; exact I | apply eval_source_more]|].
    intros [nb1|e ph] [t1 w1] (_ & Hr1); wsimpl.
    + destruct Hr1 as (Hnb1 & Hit1). destruct nb1 as [n1|]; [|contradiction].
      wp_run.
      * eapply wp_mono; [apply eval_source_more|].
        intros [nb2|e ph] [t2 w2] Hr2; wsimpl.
        -- destruct Hr2 as (Hnb2 & Hit2). split; [exact Hnb2|]. rewrite Hit2, Hit1. lia.
        -- destruct Hr2 as [Hb | (-> & Hn)]; [left; exact Hb | right; auto].
      * split; [discriminate|]. rewrite Hit1. lia.
    + destruct Hr1 as [Hb | (-> & Hn)]; [left; exact Hb | right; auto].
  - eapply wp_mono; [apply eval_source_more|].
    intros [nb2|e ph] [t2 w2] Hr2; wsimpl.
    + destruct Hr2 as (Hnb2 & Hit2). split; [exact Hnb2|]. rewrite Hit2. lia.
    + destruct Hr2 as [Hb | (-> & Hn)]; [left; exact Hb | right; auto].
Qed.

Lemma epoch_body_more n_batch (t : TorchTrainer) w :
  wp (epoch_body n_batch)
     (fun r s' =>
        let stopped :=
          PrimFloat.eqb (time_source (time_calls w) - __time_stamp t)%float 0%float in
        grown t (fst s')
        /\ match r with
           | Ret n_batch' =>
               n_batch' <> None /\ iters (snd s') = (iters w + stride t)%nat
           | Exc e ph =>
               raised_by_oracle fault_at e
               \/ (e = UnboundLocalError /\ ph = PhTrain
                   /\ n_batch = None /\ _train_iterator t (iters w) = [])
               \/ (e = ZeroDivisionError /\ ph = PhTiming /\ stopped = true)
               \/ (e = TypeError /\ ph = PhEval /\ ~ flags_ok t)
           end
        /\ (stopped = true ->
            returned r = false /\ _epoch (fst s') = _epoch t
            /\ draws (log (snd s')) = draws (log w))) (t, w).
Proof.
  unfold epoch_body. apply wp_bind.
  eapply wp_mono; [apply wp_conj; [apply train_phase_spec | apply train_phase_more]|].
  intros r1 [t1 w1] ((_ & Htc1 & Hext1 & Hr1) & Hb1). wsimpl.
  pose proof (filter_extends is_draw _ _ _ (train_event_not_draw _) Hext1) as Hd1.
  destruct r1 as [nb1|e ph].
  2:{ destruct Hr1 as (-> & ->). split; [apply grown_refl|]. split.
      - destruct Hb1 as [Hb | (-> & Hnb & Hemp)]; [left; exact Hb | right; left; auto].
      - intros _. repeat split. exact Hd1. }
  destruct Hr1 as (n & _ & -> & -> & _ & Hit1 & _).
  apply wp_bind.
  eapply wp_mono; [apply wp_conj; [apply eval_phase_spec | apply eval_phase_more]|].
  intros r2 [t2 w2] ((Hc2 & Hdu2 & _ & Hts2 & Htc2 & Hext2 & Hr2) & Hb2). wsimpl.
  change (config t2 = config t) in Hc2. change (durable t2 = durable t) in Hdu2.
  pose proof (filter_extends is_draw _ _ _ eval_event_not_draw Hext2) as Hd2.
  assert (Hg2 : grown t t2) by (apply grown_same; assumption).
  assert (He2 : _epoch t2 = _epoch t).
  { unfold durable in Hdu2. congruence. }
  destruct r2 as [nb2|e ph].
  2:{ subst ph. split; [exact Hg2|]. split.
      - destruct Hb2 as [Hb | (-> & Hfl)]; [left; exact Hb|].
        right. right. right. repeat split. intros Hok. apply Hfl.
        apply flags_ok_same with (t := t); [reflexivity | exact Hok].
      - intros _. repeat split; [exact He2|]. unfold draws. congruence. }
  destruct Hb2 as (Hnb2 & Hit2).
  apply wp_bind.
  eapply wp_mono; [apply save_block_more|].
  intros r3 [t3 w3] (Hg3 & Hit3 & Hr3 & Hz3). wsimpl.
  rewrite Htc2, Htc1, Hts2 in Hr3, Hz3.
  assert (Hg : grown t t3) by (eapply grown_trans; eassumption).
  destruct r3 as [[]|e ph].
  - apply wp_ret. wsimpl. split; [exact Hg|]. split.
    + split; [exact Hnb2|]. rewrite Hit3, Hit2, Hit1.
      unfold config in Hc2. unfold stride.
      replace (_has_valid t) with (_has_valid (set__train_loss
        (fold_left PrimFloat.add (map (loss_of t) (_train_iterator t (iters w))) 0
         / float_of_nat n)%float t)) by reflexivity.
      cbn [_has_valid _has_test set__train_loss]. lia.
    + intros Hs. rewrite Hs in Hr3. discriminate Hr3.
  - split; [exact Hg|]. split.
    + destruct Hr3 as [Hb | (He3 & Hph3 & Hs)]; [left; exact Hb | right; right; left; auto].
    + intros Hs. destruct (Hz3 Hs) as (e3 & [= -> ->] & He3 & Hd3).
      repeat split; [congruence|]. unfold draws in *. congruence.
Qed.

Lemma timed_stamp time_stamp (t : TorchTrainer) : __time_stamp (timed time_stamp t) = time_stamp.
Proof. reflexivity. Qed.

Lemma epochs_more k : forall n_batch (t : TorchTrainer) w c,
  time_calls w = S c -> __time_stamp t = time_source c ->
  wp (epochs k n_batch)
     (fun r s' =>
        grown t (fst s')
        /\ match r with
           | Ret _ => True
           | Exc e ph =>
               raised_by_oracle fault_at e
               \/ (e = UnboundLocalError /\ ph = PhTrain /\ k <> 0%nat
                   /\ n_batch = None /\ _train_iterator t (iters w) = [])
               \/ (e = ZeroDivisionError /\ ph = PhTiming
                   /\ exists c', (c <= c' < c + k)%nat
                        /\ PrimFloat.eqb (time_source (S c') - time_source c')%float 0%float
                           = true)
               \/ (e = TypeError /\ ph = PhEval /\ ~ flags_ok t)
           end) (t, w).
Proof.
  induction k as [|k IH]; intros n_batch t w c Htc Hts.
  - apply wp_ret. split; [apply grown_refl | exact I].
  - cbn [epochs]. apply wp_bind.
    eapply wp_mono; [apply wp_conj; [apply epoch_body_spec | apply epoch_body_more]|].
    intros r1 [t1 w1] ((_ & Hr1) & (Hg1 & Hb1 & _)). wsimpl.
    rewrite Htc, Hts in Hb1.
    destruct r1 as [nb1|e ph].
    + destruct Hr1 as (t0 & _ & Ht1 & Htc1 & _). destruct Hb1 as (Hnb1 & _).
      eapply wp_mono; [apply (IH nb1 t1 w1 (S c))|].
      * rewrite Htc1, Htc. reflexivity.
      * rewrite Ht1, timed_stamp, Htc. reflexivity.
      * intros r2 [t2 w2] (Hg2 & Hb2). wsimpl.
        split; [eapply grown_trans; eassumption|].
        destruct r2 as [[]|e ph]; [exact I|].
        destruct Hb2 as [Hb | [(_ & _ & _ & Hnone & _) | [(He & Hph & c' & Hc' & Hz) | (He & Hph & Hfl)]]].
        -- left. exact Hb.
        -- contradiction.
        -- right. right. left. split; [exact He|]. split; [exact Hph|].
           exists c'. split; [lia | exact Hz].
        -- right. right. right. split; [exact He|]. split; [exact Hph|].
           intros Hok. apply Hfl. apply flags_ok_same with (t := t); [apply Hg1 | exact Hok].
    + split; [exact Hg1|].
      destruct Hb1 as [Hb | [(He & Hph & Hnone & Hemp) | [(He & Hph & Hz) | Hfl]]].
      * left. exact Hb.
      * right. left. repeat split; try assumption. discriminate.
      * right. right. left. split; [exact He|]. split; [exact Hph|].
        exists c. split; [lia | exact Hz].
      * right. right. right. exact Hfl.
Qed.

Lemma train_more (t : TorchTrainer) w :
  wp train
     (fun r s' =>
        grown t (fst s')
        /\ match r with
           | Ret _ => True
           | Exc e ph =>
               raised_by_oracle fault_at e
               \/ (e = UnboundLocalError /\ ph = PhTrain /\ _epoch t <= _n_epochs t
                   /\ _train_iterator t (iters w) = [])
               \/ (e = ZeroDivisionError /\ ph = PhTiming
                   /\ exists c, (time_calls w <= c < time_calls w + epochs_to_go t)%nat
                        /\ PrimFloat.eqb (time_source (S c) - time_source c)%float 0%float
                           = true)
               \/ (e = TypeError /\ ph = PhEval /\ ~ flags_ok t)
           end) (t, w).
Proof.
  unfold train. wp_run.
  - split; [apply grown_refl|]. left. blame_tac.
  - eapply wp_mono; [apply (epochs_more _ None _ _ (time_calls w)); reflexivity|].
    intros r1 [t1 w1] (Hg1 & Hb1). wsimpl.
    assert (Hg : grown t t1).
    { eapply grown_trans; [|exact Hg1]. apply grown_same; reflexivity. }
    destruct r1 as [[]|e ph].
    + wp_run.
      * split; [|left; blame_tac].
        eapply grown_trans; [exact Hg|]. grown_tac.
      * split; [|exact I].
        eapply grown_trans; [exact Hg|]. grown_tac.
    + split; [exact Hg|].
      destruct Hb1 as [Hb | [(He & Hph & Hk & _ & Hemp) | [Hz | Hfl]]].
      * left. exact Hb.
      * right. left. repeat split; try assumption. lia.
      * right. right. left. exact Hz.
      * right. right. right. destruct Hfl as (He & Hph & Hfl).
        split; [exact He|]. split; [exact Hph | exact Hfl].
Qed.



(** X5. Whatever a call of [train] does and however it ends, it leaves the
    configuration as it was, each history with its old entries in place and
    new ones after them at most, the history of a source that is not
    configured untouched, and [_epoch] not smaller than it was. *)
Theorem histories_only_grow (t : TorchTrainer) w :
  grown t (fst (snd (train (t, w))))
  /\ _epoch t <= _epoch (fst (snd (train (t, w)))).
Proof.
  split.
  - exact (proj1 (train_more t w)).
  - pose proof (train_spec t w) as (_ & _ & He & _). apply He.
Qed.

(** X6. An epoch in which the clock has not moved since the last stamp cannot
    be completed: the call of [train] raises, [_epoch] and [_completed] stay as
    they were and no report is drawn; and with nothing else going wrong, what
    comes out is the [ZeroDivisionError] of line 354. *)
Theorem zero_duration_epoch (t : TorchTrainer) w r t' w' :
  train (t, w) = (r, (t', w')) ->
  _epoch t <= _n_epochs t ->
  PrimFloat.eqb (time_source (S (time_calls w)) - time_source (time_calls w))%float 0%float
  = true ->
  returned r = false
  /\ _epoch t' = _epoch t /\ _completed t' = _completed t
  /\ draws (log w') = draws (log w)
  /\ ((forall k, fault_at k = None) -> flags_ok t -> _train_iterator t (iters w) <> [] ->
      r = Exc ZeroDivisionError PhTiming).
Proof.
  intros Hrun Hle Hstop.
  refine (wp_elim _ (fun r s' => returned r = false
             /\ _epoch (fst s') = _epoch t /\ _completed (fst s') = _completed t
             /\ draws (log (snd s')) = draws (log w)
             /\ ((forall k, fault_at k = None) -> flags_ok t ->
                 _train_iterator t (iters w) <> [] -> r = Exc ZeroDivisionError PhTiming))
            _ _ _ Hrun _).
  unfold train. wp_run.
  - repeat split. intros Hno. rewrite Hno in H. discriminate.
  - destruct (Z.to_nat (_n_epochs t + 1 - _epoch t)) as [|k] eqn:Hk; [lia|].
    cbn [epochs]. apply wp_bind.
    eapply wp_mono; [apply wp_conj; [apply epoch_body_spec | apply epoch_body_more]|].
    intros r1 [t1 w1] (((_ & Hcp & _) & _) & (_ & Hb & Hz)). wsimpl.
    destruct (Hz Hstop) as (Hret & Hep & Hdr).
    destruct r1 as [nb1|e ph]; [discriminate|].
    split; [reflexivity|]. split; [exact Hep|]. split; [exact Hcp|]. split.
    + rewrite Hdr. unfold draws. rewrite List.filter_app. apply app_nil_r.
    + intros Hno Hfl Hne.
      destruct Hb as [(k0 & Hk0) | [(_ & _ & _ & Hemp) | [(-> & -> & _) | (_ & _ & Hbad)]]].
      * rewrite Hno in Hk0. discriminate.
      * contradiction.
      * reflexivity.
      * contradict Hbad. exact Hfl.
Qed.

(** ** A run that returns *)

Lemma epoch_body_summary n_batch (t : TorchTrainer) w :
  wp (epoch_body n_batch)
     (fun r s' =>
        match r with
        | Ret _ =>
            config (fst s') = config t
            /\ _epoch (fst s') = _epoch t + 1
            /\ _time_elapsed (fst s')
               = (_time_elapsed t + (time_source (time_calls w) - __time_stamp t))%float
            /\ __time_stamp (fst s') = time_source (time_calls w)
            /\ time_calls (snd s') = S (time_calls w)
            /\ iters (snd s') = (iters w + stride t)%nat
            /\ draws (log (snd s')) = draws (log w) ++ [EvDraw (_epoch t)]
            /\ (_train_iterator t (iters w) <> [] ->
                _train_loss_history (fst s')
                = _train_loss_history t
                  ++ [mean (map (loss_of t) (_train_iterator t (iters w)))])
        | Exc _ _ => True
        end) (t, w).
Proof.
  eapply wp_mono; [apply wp_conj; [apply epoch_body_spec | apply epoch_body_more]|].
  intros [nb|e ph] [t1 w1] (((Hc & _) & Hr) & (_ & Hb & _)); [|exact I]. wsimpl.
  destruct Hr as (t0 & (Hc0 & Hd0 & Hts0 & n & Hn & Hl) & -> & Htc & Hdr).
  destruct Hb as (_ & Hit).
  destruct (histories_apart_saved 3 t0) as (_ & He & _ & Hel & Hst).
  unfold durable in Hd0. injection Hd0 as Hh _ _ Hep _ Hela.
  split; [exact Hc|].
  split; [unfold timed; wsimpl; rewrite He, Hep; reflexivity|].
  split; [unfold timed; wsimpl; rewrite Hel, Hst, Hela, Hts0; reflexivity|].
  split; [reflexivity|]. split; [exact Htc|]. split; [exact Hit|]. split; [exact Hdr|].
  intros Hne.
  assert (Hn' : n = length (_train_iterator t (iters w))).
  { destruct (_train_iterator t (iters w)) as [|b bs]; [contradiction|].
    cbn [last_index length] in *. injection Hn as <-. lia. }
  unfold timed, saved_upto.
  destruct (_has_valid t0), (_has_test t0); wsimpl;
    rewrite Hl, Hh; unfold mean; rewrite length_map, Hn'; reflexivity.
Qed.

Lemma fold_left_seq_shift {A} (f : A -> nat -> A) n : forall start a,
  fold_left f (seq (S start) n) a = fold_left (fun acc i => f acc (S i)) (seq start n) a.
Proof.
  induction n as [|n IH]; intros start a; [reflexivity|].
  cbn [seq fold_left]. apply IH.
Qed.

Lemma fold_left_same {A B} (f g : A -> B -> A) (l : list B) :
  (forall a b, f a b = g a b) -> forall a, fold_left f l a = fold_left g l a.
Proof.
  intros Hfg. induction l as [|b l IH]; intros a; [reflexivity|].
  cbn [fold_left]. rewrite Hfg. apply IH.
Qed.

Lemma elapsed_sum_S first count elapsed :
  elapsed_sum time_source first (S count) elapsed
  = elapsed_sum time_source (S first) count
      (elapsed + (time_source (S first) - time_source first))%float.
Proof.
  unfold elapsed_sum. cbn [seq fold_left]. rewrite fold_left_seq_shift.
  rewrite Nat.add_0_r.
  apply fold_left_same. intros acc i. rewrite Nat.add_succ_r. reflexivity.
Qed.

Lemma pass_means_same (t t1 : TorchTrainer) first count :
  config t1 = config t -> pass_means t1 first count = pass_means t first count.
Proof.
  unfold config, pass_means, stride, loss_of.
  intros [= Hf Hl Hi _ _ _ _ Ht Hv _]. rewrite Hf, Hl, Hi, Ht, Hv. reflexivity.
Qed.

Lemma pass_means_S (t : TorchTrainer) first count :
  pass_means t first (S count)
  = mean (map (loss_of t) (_train_iterator t first))
    :: pass_means t (first + stride t) count.
Proof.
  unfold pass_means. cbn [seq map]. rewrite Nat.add_0_r. apply f_equal.
  rewrite <- seq_shift, map_map. apply map_ext. intros i.
  replace (first + S i * stride t)%nat with (first + stride t + i * stride t)%nat by lia.
  reflexivity.
Qed.

Lemma epochs_summary k : forall n_batch (t : TorchTrainer) w c,
  time_calls w = S c -> __time_stamp t = time_source c ->
  wp (epochs k n_batch)
     (fun r s' =>
        match r with
        | Ret _ =>
            time_calls (snd s') = (time_calls w + k)%nat
            /\ iters (snd s') = (iters w + k * stride t)%nat
            /\ _time_elapsed (fst s') = elapsed_sum time_source c k (_time_elapsed t)
            /\ draws (log (snd s'))
               = draws (log w) ++ map (fun i => EvDraw (_epoch t + Z.of_nat i)) (seq 0 k)
            /\ ((forall i, (i < k)%nat -> _train_iterator t (iters w + i * stride t)%nat <> []) ->
                _train_loss_history (fst s')
                = _train_loss_history t ++ pass_means t (iters w) k)
        | Exc _ _ => True
        end) (t, w).
Proof.
  induction k as [|k IH]; intros n_batch t w c Htc Hts.
  - apply wp_ret. wsimpl. cbn [seq map]. rewrite !app_nil_r, !Nat.add_0_r.
    repeat split.
  - cbn [epochs]. apply wp_bind.
    eapply wp_mono; [apply epoch_body_summary|].
    intros [nb1|e ph] [t1 w1] Hr1; [|exact I]. wsimpl.
    destruct Hr1 as (Hc1 & Hep1 & Hel1 & Hts1 & Htc1 & Hit1 & Hdr1 & Hh1).
    rewrite Htc, Hts in Hel1. rewrite Htc in Hts1.
    eapply wp_mono; [apply (IH nb1 t1 w1 (S c)); [congruence | exact Hts1]|].
    intros [[]|e ph] [t2 w2] Hr2; [|exact I]. wsimpl.
    destruct Hr2 as (Htc2 & Hit2 & Hel2 & Hdr2 & Hh2).
    assert (Hstr : stride t1 = stride t).
    { unfold stride, config in *. injection Hc1 as _ _ _ _ _ _ _ Ht Hv _.
      rewrite Ht, Hv. reflexivity. }
    assert (Hti : _train_iterator t1 = _train_iterator t).
    { unfold config in Hc1. congruence. }
    split; [lia|]. split; [rewrite Hit2, Hit1, Hstr; lia|].
    split; [rewrite Hel2, Hel1, elapsed_sum_S; reflexivity|]. split.
    + rewrite Hdr2, Hdr1, <- app_assoc. apply f_equal. cbn [seq map app].
      rewrite Z.add_0_r. apply f_equal.
      rewrite <- seq_shift, map_map. apply map_ext. intros i. rewrite Hep1.
      apply f_equal. lia.
    + intros Hne. rewrite Hh2.
      * rewrite Hh1, <- app_assoc.
        -- apply f_equal. rewrite pass_means_S, Hit1. cbn [app]. apply f_equal.
           apply pass_means_same. exact Hc1.
        -- specialize (Hne 0%nat). rewrite Nat.add_0_r in Hne. apply Hne. lia.
      * intros i Hi. rewrite Hti, Hit1, Hstr.
        replace (iters w + stride t + i * stride t)%nat
          with (iters w + S i * stride t)%nat by lia.
        apply Hne. lia.
Qed.

(** X7. A call of [train] that returns has run every epoch from [_epoch] to
    [_n_epochs]: it has read the clock once before the loop and once per
    epoch, started one pass over each configured source per epoch, drawn one
    report per epoch, numbered from [_epoch] on, and added to [_time_elapsed]
    the differences of the successive readings, one after the other. *)
Theorem run_summary (t : TorchTrainer) w t' w' :
  train (t, w) = (Ret tt, (t', w')) ->
  time_calls w' = (time_calls w + 1 + epochs_to_go t)%nat
  /\ iters w' = (iters w + epochs_to_go t * stride t)%nat
  /\ draws (log w')
     = draws (log w) ++ map (fun i => EvDraw (_epoch t + Z.of_nat i)) (seq 0 (epochs_to_go t))
  /\ _time_elapsed t'
     = elapsed_sum time_source (time_calls w) (epochs_to_go t) (_time_elapsed t).
Proof.
  intros Hrun.
  refine (wp_elim _ (fun r s' =>
            match r with
            | Ret _ =>
                time_calls (snd s') = (time_calls w + 1 + epochs_to_go t)%nat
                /\ iters (snd s') = (iters w + epochs_to_go t * stride t)%nat
                /\ draws (log (snd s'))
                   = draws (log w)
                     ++ map (fun i => EvDraw (_epoch t + Z.of_nat i)) (seq 0 (epochs_to_go t))
                /\ _time_elapsed (fst s')
                   = elapsed_sum time_source (time_calls w) (epochs_to_go t) (_time_elapsed t)
            | Exc _ _ => True
            end) _ _ _ Hrun _).
  unfold train. wp_run; [exact I|].
  eapply wp_mono; [apply (epochs_summary _ None _ _ (time_calls w)); reflexivity|].
  intros [[]|e ph] [t1 w1] Hr1; [|exact I]. wsimpl.
  destruct Hr1 as (Htc1 & Hit1 & Hel1 & Hdr1 & _). wp_run; try exact I.
  unfold draws in *. rewrite List.filter_app, Hdr1, List.filter_app.
  cbn [List.filter is_draw]. rewrite !app_nil_r.
  repeat split; try assumption. unfold epochs_to_go. lia.
Qed.

(** X8. A call of [train] that returns, every pass over the train source
    having yielded a batch, has appended to the train history the mean loss
    of each pass, in the order of the epochs. *)
Theorem train_history_of_run (t : TorchTrainer) w t' w' :
  train (t, w) = (Ret tt, (t', w')) ->
  (forall i, (i < epochs_to_go t)%nat ->
     _train_iterator t (iters w + i * stride t)%nat <> []) ->
  _train_loss_history t' = _train_loss_history t ++ pass_means t (iters w) (epochs_to_go t).
Proof.
  intros Hrun Hne.
  refine (wp_elim _ (fun r s' =>
            match r with
            | Ret _ =>
                _train_loss_history (fst s')
                = _train_loss_history t ++ pass_means t (iters w) (epochs_to_go t)
            | Exc _ _ => True
            end) _ _ _ Hrun _).
  unfold train. wp_run; [exact I|].
  eapply wp_mono; [apply (epochs_summary _ None _ _ (time_calls w)); reflexivity|].
  intros [[]|e ph] [t1 w1] Hr1; [|exact I]. wsimpl.
  destruct Hr1 as (_ & _ & _ & _ & Hh1). wp_run; try exact I.
  apply Hh1. exact Hne.
Qed.

(** ** The losses of the evaluation passes *)

Lemma last_index_length {B} (batches : list B) n_batch n :
  batches <> [] -> last_index batches 1 n_batch = Some n -> n = length batches.
Proof.
  intros Hne Hn. destruct batches as [|b bs]; [contradiction|].
  cbn [last_index length] in *. injection Hn as <-. lia.
Qed.

Lemma eval_source_value src (batches : BatchIterable Batch) store n_batch (t : TorchTrainer) w :
  wp (eval_source src (Some batches) store n_batch)
     (fun r s' =>
        match r with
        | Ret n_batch' =>
            exists n, last_index (batches (iters w)) 1 n_batch = Some n
              /\ n_batch' = Some n
              /\ fst s' = store (fold_left PrimFloat.add (map (loss_of t) (batches (iters w))) 0
                                 / float_of_nat n)%float t
              /\ iters (snd s') = S (iters w)
        | Exc _ _ => True
        end) (t, w).
Proof.
  unfold eval_source. wp_run; try exact I.
  eapply wp_mono; [apply eval_loop_spec|].
  intros [[x nb']|e ph] s1 (k & l & -> & _ & Hr); wsimpl; [|exact I].
  injection Hr as -> ->. unfold div_n_batch. wp_run; [|exact I].
  exists n. repeat split.
Qed.

Lemma eval_phase_values n_batch (t : TorchTrainer) w :
  wp (eval_phase n_batch)
     (fun r s' =>
        match r with
        | Ret _ =>
            (forall vi, _has_valid t = true -> _valid_iterator t = Some vi ->
               exists n, last_index (vi (iters w)) 1 n_batch = Some n
                 /\ __val_loss (fst s')
                    = (fold_left PrimFloat.add (map (loss_of t) (vi (iters w))) 0
                       / float_of_nat n)%float)
            /\ (forall ti, _has_test t = true -> _test_iterator t = Some ti ->
                  let batches := ti (iters w + (if _has_valid t then 1 else 0))%nat in
                  exists n, (batches <> [] -> n = length batches)
                    /\ __test_loss (fst s')
                       = (fold_left PrimFloat.add (map (loss_of t) batches) 0
                          / float_of_nat n)%float)
        | Exc _ _ => True
        end) (t, w).
Proof.
  unfold eval_phase. apply wp_bind, wp_self. wsimpl.
  destruct (_has_valid t) eqn:Hv, (_has_test t) eqn:Ht; cbn [orb].
  4:{ apply wp_ret. split; intros; discriminate. }
  all: apply wp_bind, wp_enter; wsimpl; apply wp_bind; wp_step; [exact I|]; apply wp_bind.
  - destruct (_valid_iterator t) as [vi|] eqn:Hvi.
    2:{ unfold eval_source, enumerate. wp_run. exact I. }
    eapply wp_mono; [apply eval_source_value|].
    intros [nb1|e ph] [t1 w1] Hr1; [|exact I]. wsimpl.
    destruct Hr1 as (n1 & Hn1 & -> & -> & Hit1).
    destruct (_test_iterator t) as [ti|] eqn:Hti.
    2:{ unfold eval_source, enumerate. wp_run. exact I. }
    eapply wp_mono; [apply eval_source_value|].
    intros [nb2|e ph] [t2 w2] Hr2; [|exact I]. wsimpl.
    destruct Hr2 as (n2 & Hn2 & -> & -> & Hit2). rewrite Hit1 in Hn2. split.
    + intros vi' _ [= <-]. exists n1. split; [exact Hn1 | reflexivity].
    + intros ti' _ [= <-]. cbn zeta. rewrite Nat.add_1_r. exists n2. split.
      * intros Hne. eapply last_index_length; eassumption.
      * rewrite Hit1. reflexivity.
  - destruct (_valid_iterator t) as [vi|] eqn:Hvi.
    2:{ unfold eval_source, enumerate. wp_run. exact I. }
    eapply wp_mono; [apply eval_source_value|].
    intros [nb1|e ph] [t1 w1] Hr1; [|exact I]. wsimpl.
    destruct Hr1 as (n1 & Hn1 & -> & -> & Hit1).
    apply wp_ret. wsimpl. split.
    + intros vi' _ [= <-]. exists n1. split; [exact Hn1 | reflexivity].
    + intros ti' Hf. discriminate.
  - apply wp_ret. wsimpl.
    destruct (_test_iterator t) as [ti|] eqn:Hti.
    2:{ unfold eval_source, enumerate. wp_run. exact I. }
    eapply wp_mono; [apply eval_source_value|].
    intros [nb2|e ph] [t2 w2] Hr2; [|exact I]. wsimpl.
    destruct Hr2 as (n2 & Hn2 & -> & -> & Hit2). split.
    + intros vi' Hf. discriminate.
    + intros ti' _ [= <-]. cbn zeta. rewrite Nat.add_0_r. exists n2. split.
      * intros Hne. eapply last_index_length; eassumption.
      * reflexivity.
Qed.

Lemma saved_histories time_stamp (t : TorchTrainer) :
  _train_loss_history (timed time_stamp (saved_upto 3 t))
  = _train_loss_history t ++ [__train_loss t]
  /\ (_has_valid t = true ->
      _valid_loss_history (timed time_stamp (saved_upto 3 t))
      = _valid_loss_history t ++ [__val_loss t])
  /\ (_has_test t = true ->
      _test_loss_history (timed time_stamp (saved_upto 3 t))
      = _test_loss_history t ++ [__test_loss t]).
Proof.
  unfold timed, saved_upto.
  destruct (_has_valid t), (_has_test t); wsimpl; repeat split; intros; try discriminate;
    reflexivity.
Qed.

Lemma epoch_body_values n_batch (t : TorchTrainer) w :
  wp (epoch_body n_batch)
     (fun r s' =>
        match r with
        | Ret _ =>
            let passed := _train_iterator t (iters w) in
            exists n0, last_index passed 1 n_batch = Some n0
              /\ _train_loss_history (fst s')
                 = _train_loss_history t
                   ++ [(fold_left PrimFloat.add (map (loss_of t) passed) 0
                        / float_of_nat n0)%float]
              /\ (forall vi, _has_valid t = true -> _valid_iterator t = Some vi ->
                    let batches := vi (S (iters w)) in
                    exists n, last_index batches 1 (Some n0) = Some n
                      /\ _valid_loss_history (fst s')
                         = _valid_loss_history t
                           ++ [(fold_left PrimFloat.add (map (loss_of t) batches) 0
                                / float_of_nat n)%float])
              /\ (forall ti, _has_test t = true -> _test_iterator t = Some ti ->
                    let batches := ti (S (iters w) + (if _has_valid t then 1 else 0))%nat in
                    exists n, (batches <> [] -> n = length batches)
                      /\ _test_loss_history (fst s')
                         = _test_loss_history t
                           ++ [(fold_left PrimFloat.add (map (loss_of t) batches) 0
                                / float_of_nat n)%float])
        | Exc _ _ => True
        end) (t, w).
Proof.
  unfold epoch_body. apply wp_bind.
  eapply wp_mono; [apply train_phase_spec|].
  intros [nb1|e ph] [t1 w1] (_ & _ & _ & Hr1); [|exact I]. wsimpl.
  destruct Hr1 as (n0 & Hn0 & -> & -> & _ & Hit1 & _).
  apply wp_bind.
  eapply wp_mono; [apply wp_conj; [apply eval_phase_spec | apply eval_phase_values]|].
  intros [nb2|e ph] [t2 w2] ((Hc2 & Hd2 & Htl2 & _) & Hv2); [|exact I]. wsimpl.
  destruct Hv2 as (HV & HT). rewrite Hit1 in HV, HT.
  apply wp_bind.
  eapply wp_mono; [apply save_block_spec|].
  intros [[]|e ph] [t3 w3] (_ & Hr3); [|exact I]. wsimpl.
  destruct Hr3 as (-> & _).
  apply wp_ret. wsimpl.
  destruct (saved_histories (time_source (time_calls w2)) t2) as (Hst & Hsv & Hste).
  unfold durable in Hd2. injection Hd2 as Hh Hhv Hht _ _ _. wsimpl.
  unfold config in Hc2. injection Hc2 as _ _ _ _ _ _ _ Hft Hfv _. wsimpl.
  exists n0. split; [exact Hn0|]. split; [rewrite Hst, Hh, Htl2; reflexivity|]. split.
  - intros vi Hv Hvi. destruct (HV vi Hv Hvi) as (n & Hn & Hl).
    exists n. split; [exact Hn|]. rewrite Hsv, Hhv, Hl by congruence. reflexivity.
  - intros ti Ht Hti. destruct (HT ti Ht Hti) as (n & Hn & Hl).
    exists n. split; [exact Hn|]. rewrite Hste, Hht, Hl by congruence. reflexivity.
Qed.


(** X10. A pass that yields no batch divides by the batch count the last loop
    left behind.  From the second epoch of a call on, an empty pass over the
    train source commits 0 divided by the last count instead of failing; and
    an empty validation pass after a train pass with batches commits 0
    divided by the number of train batches. *)
Theorem stale_batch_count n (t : TorchTrainer) w n_batch' t' w' :
  epoch_body (Some n) (t, w) = (Ret n_batch', (t', w')) ->
  (_train_iterator t (iters w) = [] ->
   _train_loss_history t' = _train_loss_history t ++ [(0 / float_of_nat n)%float])
  /\ (forall vi, _has_valid t = true -> _valid_iterator t = Some vi ->
        vi (S (iters w)) = [] -> _train_iterator t (iters w) <> [] ->
        _valid_loss_history t'
        = _valid_loss_history t
          ++ [(0 / float_of_nat (length (_train_iterator t (iters w))))%float]).
Proof.
  intros Hrun.
  pose proof (wp_elim _ _ _ _ _ Hrun (epoch_body_values (Some n) t w)) as Hr.
  cbn beta iota zeta in Hr. wsimpl.
  destruct Hr as (n0 & Hn0 & Hh & HV & _). split.
  - intros Hemp. rewrite Hemp in Hn0, Hh. cbn [last_index] in Hn0. injection Hn0 as <-.
    exact Hh.
  - intros vi Hv Hvi Hemp Hne. destruct (HV vi Hv Hvi) as (n1 & Hn1 & ->).
    rewrite Hemp in *. cbn [last_index] in Hn1. injection Hn1 as <-.
    rewrite (last_index_length _ _ _ Hne Hn0). reflexivity.
Qed.

(** ** Calls that have no epoch to run, and calls that run them all *)

(** X11. A call of [train] on a trainer whose [_epoch] is past [_n_epochs] (a
    run that is complete, or an [_n_epochs] below 1) runs no epoch: no pass
    over a source, no history entry, no report, [_epoch] and [_time_elapsed]
    as they were.  It reads the clock, marks the trainer completed and puts
    the network in its initial mode, and returns unless one of these two
    calls fails. *)
Theorem finished_trainer_noop (t : TorchTrainer) w r t' w' :
  train (t, w) = (r, (t', w')) ->
  _n_epochs t < _epoch t ->
  histories t' = histories t /\ _epoch t' = _epoch t /\ _time_elapsed t' = _time_elapsed t
  /\ iters w' = iters w /\ draws (log w') = draws (log w)
  /\ (r = Ret tt ->
      log w' = log w ++ [EvTime; EvSetMode (_initial_mode t)]
      /\ _completed t' = true /\ training w' = _initial_mode t)
  /\ (fault_at (ticks w) = None -> fault_at (S (ticks w)) = None -> r = Ret tt).
Proof.
  intros Hrun Hlt.
  refine (wp_elim _ (fun r s' =>
            histories (fst s') = histories t /\ _epoch (fst s') = _epoch t
            /\ _time_elapsed (fst s') = _time_elapsed t
            /\ iters (snd s') = iters w /\ draws (log (snd s')) = draws (log w)
            /\ (r = Ret tt ->
                log (snd s') = log w ++ [EvTime; EvSetMode (_initial_mode t)]
                /\ _completed (fst s') = true /\ training (snd s') = _initial_mode t)
            /\ (fault_at (ticks w) = None -> fault_at (S (ticks w)) = None -> r = Ret tt))
            _ _ _ Hrun _).
  unfold train. wp_run.
  - repeat split; try discriminate. congruence.
  - replace (Z.to_nat (_n_epochs t + 1 - _epoch t)) with 0%nat by lia.
    cbn [epochs]. wp_run.
    + unfold draws. rewrite List.filter_app, app_nil_r.
      repeat split; try discriminate. congruence.
    + unfold draws. rewrite !List.filter_app, !app_nil_r, <- app_assoc.
      repeat split.
Qed.

Lemma reachable_any allowed (t : TorchTrainer) :
  reachable time_source fault_at allowed t -> reachable time_source fault_at any_outcome t.
Proof.
  induction 1 as [| t _ IH | t w r s' _ IH Hrun _].
  - apply reach_init.
  - apply reach_clear. exact IH.
  - eapply reach_train; [exact IH | exact Hrun | exact I].
Qed.

(** X12. When a call of [train] returns, on a trainer a caller has come to
    hold through [__init__], [clear_history] and calls of [train] that ended
    cleanly, the train history has exactly [_n_epochs] entries, and so has the
    history of each configured evaluation source; the others are empty. *)
Theorem final_history_lengths (t : TorchTrainer) w s' :
  reachable time_source fault_at clean t ->
  0 <= _n_epochs t ->
  train (t, w) = (Ret tt, s') ->
  history_lengths (fst s')
  = (Z.to_nat (_n_epochs t),
     if _has_valid t then Z.to_nat (_n_epochs t) else 0%nat,
     if _has_test t then Z.to_nat (_n_epochs t) else 0%nat).
Proof.
  intros Hreach Hn Hrun.
  destruct (reachable_on_course t (reachable_any _ t Hreach)) as (Hep & _).
  pose proof (reachable_stable t Hreach) as Hst.
  pose proof (wp_elim _ _ _ _ _ Hrun (train_spec t w)) as (Hc & _ & _ & _ & _ & He & Hst').
  destruct (Hst' Hst) as (Htr & Hva & Hte).
  unfold config in Hc. injection Hc as _ _ _ _ _ _ _ Hft Hfv _.
  unfold history_lengths. rewrite Hva, Hte, Hft, Hfv.
  assert (Hlen : length (_train_loss_history (fst s')) = Z.to_nat (_n_epochs t)) by lia.
  rewrite Hlen. reflexivity.
Qed.

End TrainerProofs.

(** * The claims on sample runs *)

(** The epoch of [three_batches]: the mean of 2, 4 and 6 is committed. *)
Lemma mean_aggregation_witness :
  fst (epoch_body wall_clock no_fault None (three_batches, fresh_world false)) = Ret (Some 3%nat)
  /\ _train_loss_history
       (fst (snd (epoch_body wall_clock no_fault None (three_batches, fresh_world false))))
     = [4%float].
Proof.
  split; [vm_compute; reflexivity|].
  destruct (mean_aggregation wall_clock no_fault None three_batches (fresh_world false)
              (Some 3%nat)
              (fst (snd (epoch_body wall_clock no_fault None (three_batches, fresh_world false))))
              (snd (snd (epoch_body wall_clock no_fault None (three_batches, fresh_world false)))))
    as [H _].
  - vm_compute. reflexivity.
  - vm_compute. discriminate.
  - rewrite H. vm_compute. reflexivity.
Defined.

(** A trainer whose train source yields nothing. *)
Lemma empty_train_source_witness :
  fst (train wall_clock no_fault (no_batches, fresh_world false))
  = Exc UnboundLocalError PhTrain
  /\ histories (fst (snd (train wall_clock no_fault (no_batches, fresh_world false))))
     = ([], [], [])
  /\ _epoch (fst (snd (train wall_clock no_fault (no_batches, fresh_world false)))) = 1.
Proof.
  destruct (empty_train_source wall_clock no_fault no_batches (fresh_world false)
              (fst (train wall_clock no_fault (no_batches, fresh_world false)))
              (fst (snd (train wall_clock no_fault (no_batches, fresh_world false))))
              (snd (snd (train wall_clock no_fault (no_batches, fresh_world false)))))
    as (_ & Hh & He & Hr).
  - vm_compute. reflexivity.
  - vm_compute. discriminate.
  - reflexivity.
  - split; [apply Hr; reflexivity|]. split; [exact Hh | exact He].
Defined.

(** Three batches with a threshold of 1: three clip calls. *)
Lemma gradient_clipping_gating_witness :
  fst (train_phase no_fault None (three_batches, fresh_world false)) = Ret (Some 3%nat)
  /\ clips (log (snd (snd (train_phase no_fault None (three_batches, fresh_world false)))))
     = [EvClip 1; EvClip 1; EvClip 1].
Proof.
  split; [vm_compute; reflexivity|].
  destruct (gradient_clipping_gating (Batch := float) (FwdResult := float) wall_clock no_fault) as (_ & _ & _ & H & _).
  specialize (H None three_batches (fresh_world false) (Some 3%nat)
                (snd (train_phase no_fault None (three_batches, fresh_world false)))
                1%float).
  rewrite H; [reflexivity | vm_compute; reflexivity | reflexivity].
Defined.

(** Ctrl-C at the append to the validation history, the network having been
    put in training mode after [__init__] saw it in evaluation mode. *)
Lemma mode_restored_witness :
  fst (train wall_clock (fault_only 17 KeyboardInterrupt) (valid_and_test, fresh_world true))
  = Exc KeyboardInterrupt PhCommit
  /\ training (snd (snd (train wall_clock (fault_only 17 KeyboardInterrupt)
                           (valid_and_test, fresh_world true))))
     = false.
Proof.
  split; [vm_compute; reflexivity|].
  destruct (mode_restored wall_clock (fault_only 17 KeyboardInterrupt)
              valid_and_test (fresh_world true)
              (Exc KeyboardInterrupt PhCommit)
              (fst (snd (train wall_clock (fault_only 17 KeyboardInterrupt)
                           (valid_and_test, fresh_world true))))
              (snd (snd (train wall_clock (fault_only 17 KeyboardInterrupt)
                           (valid_and_test, fresh_world true)))))
    as (H & _).
  - vm_compute. reflexivity.
  - right. reflexivity.
  - rewrite H. reflexivity.
Defined.

(** C2, as stated, fails: Ctrl-C during the forward pass of the first batch
    comes out of [train] with the network in training mode, which is not the
    mode [__init__] recorded. *)
Lemma mode_left_in_training :
  fst (train wall_clock (fault_only 5 KeyboardInterrupt) (test_only, fresh_world false))
  = Exc KeyboardInterrupt PhTrain
  /\ training (snd (snd (train wall_clock (fault_only 5 KeyboardInterrupt)
                           (test_only, fresh_world false))))
     <> _initial_mode (fst (snd (train wall_clock (fault_only 5 KeyboardInterrupt)
                                   (test_only, fresh_world false)))).
Proof.
  split; [vm_compute; reflexivity|]. vm_compute. discriminate.
Qed.

(** Ctrl-C at the append to the validation history of the first epoch. *)
Lemma finally_contract_witness :
  fst (epoch_body wall_clock (fault_only 16 KeyboardInterrupt) None
         (valid_and_test, fresh_world false))
  = Exc KeyboardInterrupt PhCommit
  /\ _epoch (fst (snd (epoch_body wall_clock (fault_only 16 KeyboardInterrupt) None
                         (valid_and_test, fresh_world false)))) = 2
  /\ draws (log (snd (snd (epoch_body wall_clock (fault_only 16 KeyboardInterrupt) None
                             (valid_and_test, fresh_world false))))) = [EvDraw 1].
Proof.
  split; [vm_compute; reflexivity|].
  destruct (finally_contract (Batch := float) (FwdResult := float) wall_clock (fault_only 16 KeyboardInterrupt)) as (H & _).
  destruct (H None valid_and_test (fresh_world false) KeyboardInterrupt
              (fst (snd (epoch_body wall_clock (fault_only 16 KeyboardInterrupt) None
                           (valid_and_test, fresh_world false))))
              (snd (snd (epoch_body wall_clock (fault_only 16 KeyboardInterrupt) None
                           (valid_and_test, fresh_world false)))))
    as (_ & _ & Hd & He).
  - vm_compute. reflexivity.
  - reflexivity.
  - split; [exact He | exact Hd].
Defined.

(** A run of one epoch from a new trainer. *)
Lemma completion_flag_witness :
  fst (train wall_clock no_fault (three_batches, fresh_world false)) = Ret tt
  /\ _completed (fst (snd (train wall_clock no_fault (three_batches, fresh_world false)))) = true
  /\ _epoch (fst (snd (train wall_clock no_fault (three_batches, fresh_world false)))) = 2.
Proof.
  split; [vm_compute; reflexivity|].
  destruct (completion_flag (Batch := float) (FwdResult := float) wall_clock no_fault)
    as (_ & _ & _ & H).
  destruct (H three_batches (fresh_world false)
              (snd (train wall_clock no_fault (three_batches, fresh_world false))))
    as (Hc & He).
  - apply reach_init.
  - vm_compute. reflexivity.
  - split; [exact Hc|]. apply He. vm_compute. discriminate.
Defined.

(** Ctrl-C in the commit of the first epoch of a trainer with both sources. *)
Lemma history_length_invariant_witness :
  fst (train wall_clock (fault_only 17 KeyboardInterrupt) (valid_and_test, fresh_world false))
  = Exc KeyboardInterrupt PhCommit
  /\ history_lengths
       (fst (snd (train wall_clock (fault_only 17 KeyboardInterrupt)
                    (valid_and_test, fresh_world false))))
     = (1%nat, 1%nat, 1%nat)
  /\ _epoch (fst (snd (train wall_clock (fault_only 17 KeyboardInterrupt)
                         (valid_and_test, fresh_world false)))) = 2.
Proof.
  split; [vm_compute; reflexivity|].
  destruct (history_length_invariant wall_clock (fault_only 17 KeyboardInterrupt)
              (fst (snd (train wall_clock (fault_only 17 KeyboardInterrupt)
                           (valid_and_test, fresh_world false)))))
    as (Ha & Hb & Hc & _).
  - apply (reach_train wall_clock (fault_only 17 KeyboardInterrupt) clean
             valid_and_test (fresh_world false)
             (Exc KeyboardInterrupt PhCommit)
             (snd (train wall_clock (fault_only 17 KeyboardInterrupt)
                     (valid_and_test, fresh_world false)))).
    + apply reach_init.
    + vm_compute. reflexivity.
    + split; reflexivity.
  - vm_compute. split; reflexivity.
Defined.

(** C4, as stated, fails: Ctrl-C during [draw_info] comes out of [train]
    with the epoch committed to the histories and [_epoch] not advanced. *)
Lemma interrupted_report_breaks_invariant :
  fst (train wall_clock (fault_only 21 KeyboardInterrupt) (valid_and_test, fresh_world false))
  = Exc KeyboardInterrupt PhTiming
  /\ Z.of_nat (length (_train_loss_history
                         (fst (snd (train wall_clock (fault_only 21 KeyboardInterrupt)
                                      (valid_and_test, fresh_world false))))))
     <> _epoch (fst (snd (train wall_clock (fault_only 21 KeyboardInterrupt)
                            (valid_and_test, fresh_world false)))) - 1.
Proof.
  split; [vm_compute; reflexivity|]. vm_compute. discriminate.
Qed.

(** C1. A trainer with a test source and no validation source: the run that
    is not interrupted ends with one entry in the test history; interrupted
    at the first statement of the commit, the retry appends the train loss
    and leaves the test history empty, since line 346 compares its length to
    that of the validation history, which stays empty. *)
Lemma retry_drops_test_entry :
  fst (train wall_clock no_fault (test_only, fresh_world false)) = Ret tt
  /\ history_lengths (fst (snd (train wall_clock no_fault (test_only, fresh_world false))))
     = (1%nat, 0%nat, 1%nat)
  /\ fst (train wall_clock (fault_only 13 KeyboardInterrupt) (test_only, fresh_world false))
     = Exc KeyboardInterrupt PhCommit
  /\ history_lengths
       (fst (snd (train wall_clock (fault_only 13 KeyboardInterrupt)
                    (test_only, fresh_world false))))
     = (1%nat, 0%nat, 0%nat).
Proof.
  repeat split; vm_compute; reflexivity.
Qed.


(** Ctrl-C at each of the four points of the commit of a trainer with both
    sources: one entry more in each history, as without it. *)
Lemma interrupted_commit_idempotent_witness :
  forallb (fun k =>
             match epoch_body wall_clock (fault_only k KeyboardInterrupt) None
                     (valid_and_test, fresh_world false) with
             | (Exc KeyboardInterrupt PhCommit, _) => true
             | _ => false
             end) [15; 16; 17; 18]%nat = true
  /\ history_lengths
       (fst (snd (epoch_body wall_clock (fault_only 15 KeyboardInterrupt) None
                    (valid_and_test, fresh_world false))))
     = (1%nat, 1%nat, 1%nat).
Proof.
  split; [vm_compute; reflexivity|].
  rewrite (interrupted_commit_idempotent wall_clock (fault_only 15 KeyboardInterrupt)
             None valid_and_test (fresh_world false) (Exc KeyboardInterrupt PhCommit)
             (fst (snd (epoch_body wall_clock (fault_only 15 KeyboardInterrupt) None
                          (valid_and_test, fresh_world false))))
             (snd (snd (epoch_body wall_clock (fault_only 15 KeyboardInterrupt) None
                          (valid_and_test, fresh_world false))))).
  - reflexivity.
  - vm_compute. reflexivity.
  - vm_compute. repeat split.
  - right. split; reflexivity.
Defined.


(** * Further properties on sample runs *)



(** [three_batches] under a clock that stands still. *)
Lemma zero_duration_epoch_witness :
  fst (train stopped_clock no_fault (three_batches, fresh_world false))
  = Exc ZeroDivisionError PhTiming
  /\ _epoch (fst (snd (train stopped_clock no_fault (three_batches, fresh_world false)))) = 1
  /\ draws (log (snd (snd (train stopped_clock no_fault (three_batches, fresh_world false)))))
     = [].
Proof.
  destruct (zero_duration_epoch stopped_clock no_fault three_batches (fresh_world false)
              (fst (train stopped_clock no_fault (three_batches, fresh_world false)))
              (fst (snd (train stopped_clock no_fault (three_batches, fresh_world false))))
              (snd (snd (train stopped_clock no_fault (three_batches, fresh_world false)))))
    as (_ & He & _ & Hd & Hr).
  - vm_compute. reflexivity.
  - vm_compute. discriminate.
  - vm_compute. reflexivity.
  - split; [|split; [exact He | exact Hd]].
    apply Hr.
    + intros k. reflexivity.
    + split; discriminate.
    + vm_compute. discriminate.
Defined.

(** The two epochs of [valid_and_test]: three readings of the clock, six
    passes, two reports and two seconds. *)
Lemma run_summary_witness :
  time_calls (snd (snd (train wall_clock no_fault (valid_and_test, fresh_world false))))
  = 3%nat
  /\ iters (snd (snd (train wall_clock no_fault (valid_and_test, fresh_world false)))) = 6%nat
  /\ draws (log (snd (snd (train wall_clock no_fault (valid_and_test, fresh_world false)))))
     = [EvDraw 1; EvDraw 2]
  /\ _time_elapsed (fst (snd (train wall_clock no_fault (valid_and_test, fresh_world false))))
     = 2%float.
Proof.
  destruct (run_summary wall_clock no_fault valid_and_test (fresh_world false)
              (fst (snd (train wall_clock no_fault (valid_and_test, fresh_world false))))
              (snd (snd (train wall_clock no_fault (valid_and_test, fresh_world false)))))
    as (Htc & Hit & Hdr & Hel).
  - vm_compute. reflexivity.
  - rewrite Htc, Hit, Hdr, Hel. vm_compute. repeat split.
Defined.

(** The train history of the two epochs of [valid_and_test]. *)
Lemma train_history_of_run_witness :
  _train_loss_history
    (fst (snd (train wall_clock no_fault (valid_and_test, fresh_world false))))
  = [2; 2]%float.
Proof.
  rewrite (train_history_of_run wall_clock no_fault valid_and_test (fresh_world false)
             (fst (snd (train wall_clock no_fault (valid_and_test, fresh_world false))))
             (snd (snd (train wall_clock no_fault (valid_and_test, fresh_world false))))).
  - vm_compute. reflexivity.
  - vm_compute. reflexivity.
  - intros i Hi. vm_compute in Hi.
    assert (Hi' : i = 0%nat \/ i = 1%nat) by lia.
    destruct Hi' as [-> | ->]; vm_compute; discriminate.
Defined.


(** The second epoch of [drying_up], whose train source has run dry: the
    count of the first epoch is still there, and 0 is committed. *)
Lemma stale_batch_count_witness :
  _train_loss_history
    (fst (snd (epoch_body wall_clock no_fault (Some 1%nat)
                 (snd (epoch_body wall_clock no_fault None (drying_up, fresh_world false))))))
  = [2; 0]%float.
Proof.
  destruct (stale_batch_count wall_clock no_fault 1%nat
              (fst (snd (epoch_body wall_clock no_fault None (drying_up, fresh_world false))))
              (snd (snd (epoch_body wall_clock no_fault None (drying_up, fresh_world false))))
              (Some 1%nat)
              (fst (snd (epoch_body wall_clock no_fault (Some 1%nat)
                           (snd (epoch_body wall_clock no_fault None
                                   (drying_up, fresh_world false))))))
              (snd (snd (epoch_body wall_clock no_fault (Some 1%nat)
                           (snd (epoch_body wall_clock no_fault None
                                   (drying_up, fresh_world false)))))))
    as (Hh & _).
  - vm_compute. reflexivity.
  - rewrite Hh.
    + vm_compute. reflexivity.
    + vm_compute. reflexivity.
Defined.

(** [zero_epochs] has no epoch to run. *)
Lemma finished_trainer_noop_witness :
  fst (train wall_clock no_fault (zero_epochs, fresh_world false)) = Ret tt
  /\ histories (fst (snd (train wall_clock no_fault (zero_epochs, fresh_world false))))
     = ([], [], [])
  /\ iters (snd (snd (train wall_clock no_fault (zero_epochs, fresh_world false)))) = 0%nat.
Proof.
  destruct (finished_trainer_noop wall_clock no_fault zero_epochs (fresh_world false)
              (fst (train wall_clock no_fault (zero_epochs, fresh_world false)))
              (fst (snd (train wall_clock no_fault (zero_epochs, fresh_world false))))
              (snd (snd (train wall_clock no_fault (zero_epochs, fresh_world false)))))
    as (Hh & _ & _ & Hit & _ & _ & Hr).
  - vm_compute. reflexivity.
  - vm_compute. reflexivity.
  - split; [apply Hr; reflexivity|]. split; [exact Hh | exact Hit].
Defined.

(** [valid_and_test] after its two epochs. *)
Lemma final_history_lengths_witness :
  history_lengths
    (fst (snd (train wall_clock no_fault (valid_and_test, fresh_world false))))
  = (2%nat, 2%nat, 2%nat).
Proof.
  rewrite (final_history_lengths wall_clock no_fault valid_and_test (fresh_world false)
             (snd (train wall_clock no_fault (valid_and_test, fresh_world false)))).
  - reflexivity.
  - apply reach_init.
  - vm_compute. discriminate.
  - vm_compute. reflexivity.
Defined.

(** * The history accessors *)

Lemma list_copy_defensive (slot : HistorySlots -> positive) :
  defensive (fun self => list_copy (slot self)) slot.
Proof.
  intros self h r h' Hread. unfold list_copy in Hread.
  destruct (h !! slot self) as [elems|] eqn:Hs; [|discriminate].
  injection Hread as <- <-.
  assert (Hnew : h !! fresh (dom h) = None).
  { apply not_elem_of_dom. apply is_fresh. }
  assert (Hold : forall l, is_Some (h !! l) -> l <> fresh (dom h)).
  { intros l [x Hx] ->. congruence. }
  assert (Hkeep : forall l, is_Some (h !! l) -> <[fresh (dom h) := elems]> h !! l = h !! l).
  { intros l Hl. apply lookup_insert_ne. apply not_eq_sym, Hold, Hl. }
  assert (Hkeep' : forall f l, is_Some (h !! l) ->
            mutate (fresh (dom h)) f (<[fresh (dom h) := elems]> h) !! l = h !! l).
  { intros f l Hl. unfold mutate. rewrite lookup_alter_ne by (apply not_eq_sym, Hold, Hl).
    apply Hkeep, Hl. }
  split; [apply lookup_insert_eq|]. split; [exact Hnew|].
  split; [exact Hkeep|]. split; [exact Hkeep'|]. split.
  - intros r2 h2 Hread2. unfold list_copy in Hread2.
    rewrite Hkeep, Hs in Hread2 by (rewrite Hs; eauto).
    injection Hread2 as <- <-. apply lookup_insert_eq.
  - intros f r2 h2 Hread2. unfold list_copy in Hread2.
    rewrite Hkeep', Hs in Hread2 by (rewrite Hs; eauto).
    injection Hread2 as <- <-. apply lookup_insert_eq.
Qed.

(** C10. Each of the three history accessors returns a new list with the
    elements of the history: no list that existed is changed by the read or by
    whatever the caller then does to the list it got, and a second read finds
    the same elements. *)
Theorem accessors_return_copies :
  defensive train_loss_history train_ref
  /\ defensive test_loss_history test_ref
  /\ defensive valid_loss_history valid_ref.
Proof.
  split; [|split].
  - exact (list_copy_defensive train_ref).
  - exact (list_copy_defensive test_ref).
  - exact (list_copy_defensive valid_ref).
Qed.

(** Clearing the list that [train_loss_history] returned leaves the history
    as it was. *)
Lemma accessors_return_copies_witness :
  match train_loss_history sample_slots sample_heap with
  | Some (r, h') =>
      mutate r (fun _ => []) h' !! train_ref sample_slots = Some [4%float]
      /\ h' !! r = Some [4%float]
  | None => False
  end.
Proof.
  destruct accessors_return_copies as (H & _).
  destruct (train_loss_history sample_slots sample_heap) as [[r h']|] eqn:Hread.
  - destruct (H sample_slots sample_heap r h' Hread) as (Hr & _ & _ & Hm & _).
    split.
    + rewrite Hm; [reflexivity | eexists; reflexivity].
    + rewrite Hr. reflexivity.
  - discriminate Hread.
Defined.
